(** * Java Apollo-Android input-type visitor

    A shallow embedding of
    [packages/plugins/java/apollo-android/src/visitor.ts]: the visitor that
    turns one GraphQL input-object type definition into the text of a Java
    class (fields, constructor, getters, marshaller, builder) while
    accumulating the set of imports the class needs.

    Text is [string]; the visitor's private [_imports] set is threaded
    explicitly through a small state-and-exception monad; the exceptions
    the visitor can raise are JavaScript [TypeError]s: dereferencing the
    result of a failed schema lookup, and calling [includes] on a resolved
    type that is not a string. *)

From Stdlib Require Import String Ascii List Bool Arith Lia FinFun.
Import ListNotations.
Open Scope string_scope.

Set Implicit Arguments.

(** ** Text helpers *)

(** The double-quote and line-feed characters of the template literals. *)
Definition dq : string := String (ascii_of_nat 34) EmptyString.
Definition nl : string := String (ascii_of_nat 10) EmptyString.

(** [Array.prototype.join]. *)
Fixpoint join (sep : string) (l : list string) : string :=
  match l with
  | [] => ""
  | [x] => x
  | x :: rest => x ++ sep ++ join sep rest
  end.

(** A template literal that spans several source lines. *)
Definition lines (l : list string) : string := join nl l.

(** [String.prototype.includes]. *)
Fixpoint includes (needle hay : string) : bool :=
  if prefix needle hay then true
  else match hay with
       | EmptyString => false
       | String _ rest => includes needle rest
       end.

(** JavaScript truthiness of a possibly missing string: [undefined] and the
    empty string are falsy. *)
Definition truthy (v : option string) : option string :=
  match v with
  | Some EmptyString => None
  | other => other
  end.

(** [v || dflt] *)
Definition orElse (v : option string) (dflt : string) : string :=
  match truthy v with
  | Some s => s
  | None => dflt
  end.

(** Interpolation of a value that may be [null] into a template literal. *)
Definition interpolate (v : option string) : string :=
  match v with
  | Some s => s
  | None => "null"
  end.

(** What reading a property of an object literal gives: [undefined], one of
    the literal's own string values, or a member that every object inherits
    from [Object.prototype] ([constructor], [toString], [valueOf], ...).  An
    inherited member is not a string and is truthy; [text] is what it turns
    into inside a template literal or as a property key. *)
Inductive JSValue : Type :=
| JSUndefined
| JSString (s : string)
| JSInherited (text : string).

(** String conversion, as in a template literal. *)
Definition toText (v : JSValue) : string :=
  match v with
  | JSUndefined => "undefined"
  | JSString s => s
  | JSInherited text => text
  end.

(** [literal[key]] for an object literal with the own keys [own], in a runtime
    whose [Object.prototype] has the members [inherited] (by name, each with
    its string conversion): an own key shadows an inherited member. *)
Definition lookup (inherited own : string -> option string) (key : string) : JSValue :=
  match own key with
  | Some v => JSString v
  | None =>
      match inherited key with
      | Some text => JSInherited text
      | None => JSUndefined
      end
  end.

(** [v || dflt] on values: [undefined] and the empty string are falsy. *)
Definition orDefault (v : JSValue) (dflt : string) : JSValue :=
  match v with
  | JSUndefined => JSString dflt
  | JSString EmptyString => JSString dflt
  | other => other
  end.

(** Modelled from the spec: [indent] of [@graphql-codegen/visitor-plugin-common]
    is not part of the sources at hand; it prefixes the text with [count]
    indentation units of two spaces. *)
Fixpoint indentation (count : nat) : string :=
  match count with
  | O => ""
  | S n => "  " ++ indentation n
  end.

Definition indent (str : string) (count : nat) : string :=
  indentation count ++ str.

(** Replace every line feed of [s] by [rep] (the helper's
    [str.replace(/\n/g, replaceWith)]). *)
Fixpoint replaceNewlines (rep s : string) : string :=
  match s with
  | EmptyString => EmptyString
  | String c rest =>
      if Ascii.eqb c (ascii_of_nat 10)
      then rep ++ replaceNewlines rep rest
      else String c (replaceNewlines rep rest)
  end.

(** Modelled from the spec: [indentMultiline] of
    [@graphql-codegen/visitor-plugin-common] is not part of the sources at
    hand; it indents the first line and every line after a line feed. *)
Definition indentMultiline (str : string) (count : nat) : string :=
  indentation count ++ replaceNewlines (nl ++ indentation count) str.

(** ** GraphQL syntax and schema *)

(** [TypeNode] of the GraphQL AST. *)
Inductive TypeNode : Type :=
| NamedType (name : string)
| ListType (type : TypeNode)
| NonNullType (type : TypeNode).

(** [InputValueDefinitionNode]: [name] is [field.name.value]. *)
Record InputValueDefinitionNode : Type := {
  name : string;
  type : TypeNode
}.

(** [InputObjectTypeDefinitionNode]: [nodeName] is [node.name.value]. *)
Record InputObjectTypeDefinitionNode : Type := {
  nodeName : string;
  fields : list InputValueDefinitionNode
}.

(** The classes of named types a [GraphQLSchema] can hold. *)
Inductive TypeKind : Type :=
| ScalarType | ObjectType | InterfaceType | UnionType | EnumType | InputObjectType.

Record GraphQLNamedType : Type := {
  typeKind : TypeKind;
  typeName : string
}.

Definition isScalarType (t : option GraphQLNamedType) : bool :=
  match t with Some {| typeKind := ScalarType |} => true | _ => false end.

Definition isInputObjectType (t : option GraphQLNamedType) : bool :=
  match t with Some {| typeKind := InputObjectType |} => true | _ => false end.

Definition isEnumType (t : option GraphQLNamedType) : bool :=
  match t with Some {| typeKind := EnumType |} => true | _ => false end.

(** [type.kind === Kind.NON_NULL_TYPE] *)
Definition isNonNullType (t : TypeNode) : bool :=
  match t with NonNullType _ => true | _ => false end.

(** [type.kind === Kind.LIST_TYPE] *)
Definition isListType (t : TypeNode) : bool :=
  match t with ListType _ => true | _ => false end.

(** Modelled from the spec: [getBaseTypeNode] of
    [@graphql-codegen/visitor-plugin-common] is not part of the sources at
    hand; it unwraps a type reference to its base named type and the result
    here is that type's name ([baseType.name.value]). *)
Fixpoint getBaseTypeNode (t : TypeNode) : string :=
  match t with
  | NamedType n => n
  | ListType t' => getBaseTypeNode t'
  | NonNullType t' => getBaseTypeNode t'
  end.

(** Modelled from the spec: [wrapTypeWithModifiers] of
    [@graphql-codegen/java-common] is not part of the sources at hand; every
    list level of the type reference wraps the base type in the generic list
    type by a template literal, non-null markers are transparent, and
    without a list level the base type is handed back as it came. *)
Fixpoint wrapTypeWithModifiers (baseType : JSValue) (t : TypeNode) (listType : string) : JSValue :=
  match t with
  | NamedType _ => baseType
  | ListType t' =>
      JSString (listType ++ "<" ++ toText (wrapTypeWithModifiers baseType t' listType) ++ ">")
  | NonNullType t' => wrapTypeWithModifiers baseType t' listType
  end.

(** ** The import set and the visitor monad *)

(** A JavaScript [Set<string>]: distinct elements in insertion order. *)
Definition ImportSet : Type := list string.

Definition setAdd (x : string) (s : ImportSet) : ImportSet :=
  if in_dec string_dec x s then s else (s ++ [x])%list.

(** A method of the visitor: it reads and extends [_imports] and either
    returns a value or throws; what was added before a throw stays added. *)
Definition M (A : Type) : Type := ImportSet -> option A * ImportSet.

Definition ret {A} (a : A) : M A := fun s => (Some a, s).

Definition throw {A} : M A := fun s => (None, s).

Definition bind {A B} (m : M A) (f : A -> M B) : M B :=
  fun s => match m s with
           | (Some a, s') => f a s'
           | (None, s') => (None, s')
           end.

Notation "x <- m ;; k" := (bind m (fun x => k))
  (at level 61, m at next level, right associativity).
Notation "m ;;; k" := (bind m (fun _ => k))
  (at level 61, right associativity).

(** [this._imports.add(x)] *)
Definition addImport (x : string) : M unit := fun s => (Some tt, setAdd x s).

Definition when (b : bool) (m : M unit) : M unit := if b then m else ret tt.

(** [array.map(callback)] for a callback with effects: elements in order. *)
Fixpoint mapM {A B} (f : A -> M B) (l : list A) : M (list B) :=
  match l with
  | [] => ret []
  | x :: rest =>
      y <- f x ;;
      ys <- mapM f rest ;;
      ret (y :: ys)
  end.

(** ** External collaborators *)

(** The [Imports] table of [./imports]: the members the visitor names and
    the lookup by a computed key, whose result stands in the import set
    under the text it is printed with. *)
Record ImportsTable : Type := {
  Imports_lookup : string -> option string;
  Imports_Input : string;
  Imports_NonNull : string;
  Imports_Nullable : string;
  Imports_List : string;
  Imports_Override : string;
  Imports_IOException : string;
  Imports_InputFieldWriter : string;
  Imports_InputFieldMarshaller : string;
  Imports_Utils : string;
  Imports_InputType : string;
  Imports_Generated : string
}.

(** What the visitor hands to a [JavaDeclarationBlock]. *)
Record JavaDeclarationBlock : Type := {
  blockAnnotations : list string;
  blockAccess : string;
  blockFinal : bool;
  blockStatic : bool;
  blockKind : string;
  blockName : string;
  blockBody : string;
  blockImplements : list string
}.

(** The own keys of [SCALAR_TO_WRITER_METHOD]; the visitor reads the literal
    with [lookup], which also finds what the literal inherits. *)
Definition SCALAR_TO_WRITER_METHOD (scalar : string) : option string :=
  if String.eqb scalar "ID" then Some "writeString"
  else if String.eqb scalar "String" then Some "writeString"
  else if String.eqb scalar "Int" then Some "writeInt"
  else if String.eqb scalar "Boolean" then Some "writeBoolean"
  else if String.eqb scalar "Float" then Some "writeDouble"
  else None.

(** ** The visitor *)

Module Visitor.

Section Methods.

(** The members of the runtime's [Object.prototype], by name, each with its
    string conversion. *)
Variable inherited : string -> option string.
(** [this._schema.getType]: [None] is the lookup's [undefined]. *)
Variable getType : string -> option GraphQLNamedType.
(** The own keys of [this.config.scalars], and [this.config.package]. *)
Variable scalars : string -> option string.
Variable package : string.
Variable Imports : ImportsTable.
(** The [string] getter of a [JavaDeclarationBlock]. *)
Variable blockString : JavaDeclarationBlock -> string.

(** The [imports] getter. *)
Definition imports (s : ImportSet) : list string :=
  map (fun imp => "import " ++ imp ++ ";") s.

Definition getActualType (t : TypeNode) (wrap : bool) : M string :=
  match getType (getBaseTypeNode t) with
  | None => throw
  | Some schemaType =>
      typeToUse <-
        (if isScalarType (Some schemaType) then
           let scalar := orDefault (lookup inherited scalars (typeName schemaType)) "Object" in
           match truthy (Imports_lookup Imports (toText scalar)) with
           | Some imp => addImport imp
           | None => ret tt
           end ;;;
           ret scalar
         else if isInputObjectType (Some schemaType) then
           addImport (package ++ "." ++ typeName schemaType) ;;;
           ret (JSString (typeName schemaType))
         else ret (JSString (typeName schemaType))) ;;
      let result :=
        if wrap then wrapTypeWithModifiers typeToUse t "List" else typeToUse in
      match result with
      | JSString text =>
          when (includes "List<" text) (addImport (Imports_List Imports)) ;;;
          ret text
      | _ => throw
      end
  end.

Definition getFieldWithTypePrefix
    (field : InputValueDefinitionNode) (withInputWrapperWhenNeeded : bool) : M string :=
  addImport (Imports_Input Imports) ;;;
  typeToUse <- getActualType (type field) true ;;
  let isNonNull := isNonNullType (type field) in
  when isNonNull (addImport (Imports_NonNull Imports)) ;;;
  if isNonNull then
    ret ("@Nonnull " ++ typeToUse ++ " " ++ name field)
  else if withInputWrapperWhenNeeded then
    ret ("Input<" ++ typeToUse ++ "> " ++ name field)
  else
    ret (typeToUse ++ " " ++ name field).

Definition buildInputPrivateFields (fs : list InputValueDefinitionNode) : M (list string) :=
  decls <- mapM (fun field =>
             fieldType <- getFieldWithTypePrefix field true ;;
             ret ("private final " ++ fieldType ++ ";")) fs ;;
  ret (map (fun s => indent s 1) decls).

Definition buildInputCtor (className : string) (fs : list InputValueDefinitionNode) : M string :=
  mappedFields <- mapM (fun field => getFieldWithTypePrefix field true) fs ;;
  ret (indentMultiline (lines [
    className ++ "(" ++ join ", " mappedFields ++ ") {";
    join nl (map (fun field => indent ("this." ++ name field ++ " = " ++ name field ++ ";") 1) fs);
    "}" ]) 1).

Definition getFieldWriterCall (field : InputValueDefinitionNode) (listItemCall : bool) : string :=
  let schemaType := getType (getBaseTypeNode (type field)) in
  let isNonNull := isNonNullType (type field) in
  let generic (writerMethod : option string) :=
    if listItemCall then interpolate writerMethod ++ "($item)"
    else interpolate writerMethod ++ "(" ++ dq ++ name field ++ dq ++ ", " ++ name field
           ++ (if isNonNull then "" else ".value") ++ ")" in
  if isScalarType schemaType then
    generic (Some (toText (orDefault
               (match schemaType with
                | Some t => lookup inherited SCALAR_TO_WRITER_METHOD (typeName t)
                | None => JSUndefined
                end) "writeCustom")))
  else if isInputObjectType schemaType then
    if listItemCall then "writeObject($item.marshaller())"
    else "writeObject(" ++ dq ++ name field ++ dq ++ ", " ++ name field
           ++ ".value != null ? " ++ name field ++ ".value.marshaller() : null)"
  else if isEnumType schemaType then
    generic (Some "writeString")
  else
    generic None.

(** [isArray] of [buildFieldsMarshaller]. *)
Definition isArrayType (t : TypeNode) : bool :=
  isListType t
  || (isNonNullType t
      && match t with
         | NonNullType inner => isListType inner
         | _ => false
         end).

(** The list-writer statement of [buildFieldsMarshaller]. *)
Definition listWriter (fieldName listItemType call : string) : string :=
  lines [
    "writer.writeList(" ++ dq ++ fieldName ++ dq ++ ", " ++ fieldName
      ++ ".value != null ? new InputFieldWriter.ListWriter() {";
    "  @Override";
    "  public void write(InputFieldWriter.ListItemWriter listItemWriter) throws IOException {";
    "    for (" ++ listItemType ++ " $item : " ++ fieldName ++ ".value) {";
    "      listItemWriter." ++ call ++ ";";
    "    }";
    "  }";
    "} : null);" ].

(** The presence guard of [buildFieldsMarshaller]. *)
Definition presenceGuard (fieldName result : string) : string :=
  indentMultiline (lines [
    "if(" ++ fieldName ++ ".defined) {";
    indentMultiline result 1;
    "}" ]) 1.

Definition buildFieldsMarshaller (field : InputValueDefinitionNode) : M string :=
  let isNonNull := isNonNullType (type field) in
  let isArray := isArrayType (type field) in
  let call := getFieldWriterCall field isArray in
  listItemType <- getActualType (type field) false ;;
  let result :=
    if isArray then listWriter (name field) listItemType call
    else indent ("writer." ++ call ++ ";") 1 in
  if isNonNull then ret result
  else ret (presenceGuard (name field) result).

Definition buildMarshallerOverride (fs : list InputValueDefinitionNode) : M string :=
  addImport (Imports_Override Imports) ;;;
  addImport (Imports_IOException Imports) ;;;
  addImport (Imports_InputFieldWriter Imports) ;;;
  addImport (Imports_InputFieldMarshaller Imports) ;;;
  allMarshallers <- mapM (fun field =>
                      m <- buildFieldsMarshaller field ;;
                      ret (indentMultiline m 2)) fs ;;
  ret (indentMultiline (lines [
    "@Override";
    "public InputFieldMarshaller marshaller() {";
    "  return new InputFieldMarshaller() {";
    "    @Override";
    "    public void marshal(InputFieldWriter writer) throws IOException {";
    join nl allMarshallers;
    "    }";
    "  };";
    "}" ]) 1).

(** The private slots of the builder ([privateFields] of
    [buildBuilderNestedClass]). *)
Definition builderPrivateFields (fs : list InputValueDefinitionNode) : M (list string) :=
  decls <- mapM (fun field =>
             fieldType <- getFieldWithTypePrefix field true ;;
             let isNonNull := isNonNullType (type field) in
             ret ("private " ++ fieldType
                    ++ (if isNonNull then "" else " = Input.absent()") ++ ";")) fs ;;
  ret (map (fun s => indent s 1) decls).

(** The fluent setters of the builder ([setters]). *)
Definition builderSetters (builderClassName : string)
    (fs : list InputValueDefinitionNode) : M (list string) :=
  decls <- mapM (fun field =>
             fieldType <- getFieldWithTypePrefix field false ;;
             let isNonNull := isNonNullType (type field) in
             ret (lines [
               "";
               "public " ++ builderClassName ++ " " ++ name field ++ "("
                 ++ (if isNonNull then "" else "@Nullable ") ++ fieldType ++ ") {";
               "  this." ++ name field ++ " = "
                 ++ (if isNonNull then name field
                     else "Input.fromNullable(" ++ name field ++ ")") ++ ";";
               "  return this;";
               "}" ])) fs ;;
  ret (map (fun s => indentMultiline s 1) decls).

(** One null-check line of [build()]. *)
Definition checkNotNull (nnField : InputValueDefinitionNode) : string :=
  indent ("Utils.checkNotNull(" ++ name nnField ++ ", " ++ dq ++ name nnField
            ++ " == null" ++ dq ++ ");") 1.

(** The null-checks of [build()] ([nonNullFields]). *)
Definition nonNullFields (fs : list InputValueDefinitionNode) : M (list string) :=
  mapM (fun nnField =>
          addImport (Imports_Utils Imports) ;;;
          ret (checkNotNull nnField))
       (filter (fun f => isNonNullType (type f)) fs).

(** The text of [build()] ([buildFn]) from its null-checks. *)
Definition buildFn (className : string) (checks : list string)
    (fs : list InputValueDefinitionNode) : string :=
  indentMultiline (lines [
    "public " ++ className ++ " build() {";
    join nl checks;
    "  return new " ++ className ++ "(" ++ join ", " (map name fs) ++ ");";
    "}" ]) 1.

(** The [body] of the builder class. *)
Definition builderBody (className : string) (fs : list InputValueDefinitionNode) : M string :=
  let builderClassName := "Builder" in
  privateFields <- builderPrivateFields fs ;;
  setters <- builderSetters builderClassName fs ;;
  checks <- nonNullFields fs ;;
  let ctor := nl ++ indent (builderClassName ++ "() {}") 1 in
  ret (join nl (privateFields ++ [ctor] ++ setters ++ [""; buildFn className checks fs])%list).

Definition buildBuilderNestedClass (className : string)
    (fs : list InputValueDefinitionNode) : M string :=
  body <- builderBody className fs ;;
  ret (indentMultiline (blockString {|
    blockAnnotations := [];
    blockAccess := "public";
    blockFinal := true;
    blockStatic := true;
    blockKind := "class";
    blockName := "Builder";
    blockBody := body;
    blockImplements := [] |}) 1).

Definition buildInputGetters (fs : list InputValueDefinitionNode) : M (list string) :=
  decls <- mapM (fun field =>
             fieldType <- getFieldWithTypePrefix field true ;;
             let isNullable := negb (isNonNullType (type field)) in
             when isNullable (addImport (Imports_Nullable Imports)) ;;;
             ret ("public " ++ (if isNullable then "@Nullable " else "") ++ fieldType
                    ++ "() { return this." ++ name field ++ "; }")) fs ;;
  ret (map (fun s => indent s 1) decls).

(** The text handed to the class's declaration block ([classBlock]). *)
Definition classBlock (node : InputObjectTypeDefinitionNode) : M string :=
  let className := nodeName node in
  addImport (Imports_InputType Imports) ;;;
  addImport (Imports_Generated Imports) ;;;
  privateFields <- buildInputPrivateFields (fields node) ;;
  ctor <- buildInputCtor className (fields node) ;;
  getters <- buildInputGetters (fields node) ;;
  let builderGetter := indent "public static Builder builder() { return new Builder(); }" 1 in
  marshallerOverride <- buildMarshallerOverride (fields node) ;;
  builderClass <- buildBuilderNestedClass className (fields node) ;;
  ret (join nl (privateFields ++ [""; ctor; ""] ++ getters
                  ++ [""; builderGetter; ""; marshallerOverride; ""; builderClass])%list).

Definition InputObjectTypeDefinition (node : InputObjectTypeDefinitionNode) : M string :=
  block <- classBlock node ;;
  ret (blockString {|
    blockAnnotations := ["Generated(" ++ dq ++ "Apollo GraphQL" ++ dq ++ ")"];
    blockAccess := "public";
    blockFinal := true;
    blockStatic := false;
    blockKind := "class";
    blockName := nodeName node;
    blockBody := block;
    blockImplements := ["InputType"] |}).

End Methods.

End Visitor.

Import Visitor.

(** ** A concrete schema and configuration

    The schema of the running example: the built-in scalars, a custom scalar
    [Date] without a mapping, an enum [Status] and the input objects
    [OtherInput] and [SubFilter]. *)

Module Demo.

(** [Object.prototype] as Node has it: its functions print as native
    code, [__proto__] reads as the prototype object itself. *)
Definition inherited (key : string) : option string :=
  if String.eqb key "constructor" then Some "function Object() { [native code] }"
  else if String.eqb key "__proto__" then Some "[object Object]"
  else if existsb (String.eqb key)
            [ "hasOwnProperty"; "isPrototypeOf"; "propertyIsEnumerable";
              "toLocaleString"; "toString"; "valueOf";
              "__defineGetter__"; "__defineSetter__";
              "__lookupGetter__"; "__lookupSetter__" ]
  then Some ("function " ++ key ++ "() { [native code] }")
  else None.

Definition getType (n : string) : option GraphQLNamedType :=
  if existsb (String.eqb n) ["ID"; "String"; "Int"; "Boolean"; "Float"; "Date"]
  then Some {| typeKind := ScalarType; typeName := n |}
  else if String.eqb n "Status"
  then Some {| typeKind := EnumType; typeName := n |}
  else if existsb (String.eqb n) ["OtherInput"; "SubFilter"]
  then Some {| typeKind := InputObjectType; typeName := n |}
  else None.

(** The default scalars the constructor passes on, with [ID] as [String]. *)
Definition scalars (n : string) : option string :=
  if String.eqb n "ID" then Some "String"
  else if String.eqb n "String" then Some "String"
  else if String.eqb n "Boolean" then Some "Boolean"
  else if String.eqb n "Int" then Some "Integer"
  else if String.eqb n "Float" then Some "Float"
  else None.

Definition package : string := "com.example".

Definition Imports : ImportsTable := {|
  Imports_lookup := fun k =>
    if String.eqb k "String" then Some "java.lang.String"
    else if String.eqb k "Boolean" then Some "java.lang.Boolean"
    else if String.eqb k "Integer" then Some "java.lang.Integer"
    else if String.eqb k "Object" then Some "java.lang.Object"
    else if String.eqb k "Float" then Some "java.lang.Float"
    else if String.eqb k "List" then Some "java.util.List"
    else None;
  Imports_Input := "com.apollographql.apollo.api.Input";
  Imports_NonNull := "javax.annotation.Nonnull";
  Imports_Nullable := "javax.annotation.Nullable";
  Imports_List := "java.util.List";
  Imports_Override := "java.lang.Override";
  Imports_IOException := "java.io.IOException";
  Imports_InputFieldWriter := "com.apollographql.apollo.api.InputFieldWriter";
  Imports_InputFieldMarshaller := "com.apollographql.apollo.api.InputFieldMarshaller";
  Imports_Utils := "com.apollographql.apollo.api.internal.Utils";
  Imports_InputType := "com.apollographql.apollo.api.InputType";
  Imports_Generated := "javax.annotation.Generated"
|}.

(** A plain rendering of a declaration block. *)
Definition blockString (b : JavaDeclarationBlock) : string :=
  let header :=
    blockAccess b
      ++ (if blockStatic b then " static" else "")
      ++ (if blockFinal b then " final" else "")
      ++ " " ++ blockKind b ++ " " ++ blockName b
      ++ (match blockImplements b with
          | [] => ""
          | ifaces => " implements " ++ join ", " ifaces
          end)
      ++ " {" in
  join nl (List.app (map (fun a => "@" ++ a) (blockAnnotations b))
                    [header; blockBody b; "}"]).

Definition id : InputValueDefinitionNode :=
  {| name := "id"; type := NonNullType (NamedType "ID") |}.
Definition tags : InputValueDefinitionNode :=
  {| name := "tags"; type := ListType (NamedType "String") |}.
Definition requiredTags : InputValueDefinitionNode :=
  {| name := "tags"; type := NonNullType (ListType (NamedType "String")) |}.
Definition ref : InputValueDefinitionNode :=
  {| name := "ref"; type := NamedType "OtherInput" |}.
Definition requiredRef : InputValueDefinitionNode :=
  {| name := "ref"; type := NonNullType (NamedType "OtherInput") |}.
Definition refs : InputValueDefinitionNode :=
  {| name := "refs"; type := ListType (NamedType "OtherInput") |}.
Definition when_ : InputValueDefinitionNode :=
  {| name := "when"; type := NamedType "Date" |}.
Definition parent : InputValueDefinitionNode :=
  {| name := "parent"; type := NonNullType (NamedType "OtherInput") |}.

Definition sample : InputObjectTypeDefinitionNode :=
  {| nodeName := "Sample"; fields := [id; tags; ref; refs; when_; parent] |}.

Definition count : InputValueDefinitionNode :=
  {| name := "count"; type := NamedType "Int" |}.

(** A class whose only field is required. *)
Definition one : InputObjectTypeDefinitionNode :=
  {| nodeName := "One"; fields := [id] |}.

(** A freshly constructed visitor has an empty import set. *)
Definition generate (node : InputObjectTypeDefinitionNode) : option string * ImportSet :=
  InputObjectTypeDefinition inherited getType scalars package Imports blockString node [].

End Demo.

(** ** Notions used in the statements *)

(** GraphQL names: a letter or underscore, then letters, digits, underscores. *)
Definition isNameStart (c : ascii) : bool :=
  let n := nat_of_ascii c in
  (((65 <=? n) && (n <=? 90)) || ((97 <=? n) && (n <=? 122)) || (n =? 95))%nat.

Definition isNameContinue (c : ascii) : bool :=
  let n := nat_of_ascii c in
  isNameStart c || ((48 <=? n) && (n <=? 57))%nat.

Fixpoint allChars (p : ascii -> bool) (s : string) : bool :=
  match s with
  | EmptyString => true
  | String c rest => p c && allChars p rest
  end.

Definition isName (s : string) : bool :=
  match s with
  | EmptyString => false
  | String c rest => isNameStart c && allChars isNameContinue rest
  end.

(** The type of a field resolves: its base type is in the schema and, when
    that is a scalar without a mapping of its own, its name is not the name
    of an inherited member. *)
Definition resolvable (inherited : string -> option string)
    (getType : string -> option GraphQLNamedType) (scalars : string -> option string)
    (t : TypeNode) : bool :=
  match getType (getBaseTypeNode t) with
  | None => false
  | Some st =>
      match typeKind st, scalars (typeName st), inherited (typeName st) with
      | ScalarType, None, Some _ => false
      | _, _, _ => true
      end
  end.

(** A text that fits on one line. *)
Definition noNewline (s : string) : bool :=
  allChars (fun c => negb (Ascii.eqb c (ascii_of_nat 10))) s.


(** The import set after a sequence of [add] calls. *)
Definition addAll (added : list string) (s : ImportSet) : ImportSet :=
  fold_left (fun acc x => setAdd x acc) added s.

(** A method that only ever writes to the import set: its outcome is fixed
    and its effect is a fixed sequence of [add] calls. *)
Definition WriteOnly {A} (m : M A) : Prop :=
  exists (v : option A) (added : list string), forall s, m s = (v, addAll added s).

(** A method that returns, whatever the import set: it never throws. *)
Definition Returns {A} (m : M A) : Prop :=
  forall s, exists a s', m s = (Some a, s').

(** ** The import set *)

Lemma setAdd_In (x y : string) (s : ImportSet) :
  In y (setAdd x s) <-> y = x \/ In y s.
Proof.
  unfold setAdd. destruct (in_dec string_dec x s) as [Hin | Hout].
  - split; [auto | intros [-> | H]; assumption].
  - rewrite in_app_iff. simpl. intuition congruence.
Qed.

Lemma setAdd_NoDup (x : string) (s : ImportSet) :
  NoDup s -> NoDup (setAdd x s).
Proof.
  intros Hs. unfold setAdd. destruct (in_dec string_dec x s) as [Hin | Hout]; [assumption |].
  apply NoDup_app; [assumption | repeat constructor; simpl; tauto |].
  intros y Hy [<- | []]. contradiction.
Qed.

Lemma addAll_app (a b : list string) (s : ImportSet) :
  addAll (a ++ b) s = addAll b (addAll a s).
Proof. apply fold_left_app. Qed.

Lemma addAll_In (added : list string) : forall (s : ImportSet) (y : string),
  In y (addAll added s) <-> In y added \/ In y s.
Proof.
  induction added as [| x added IH]; intros s y; simpl.
  - tauto.
  - unfold addAll in *. simpl. rewrite IH, setAdd_In. intuition congruence.
Qed.

Lemma addAll_NoDup (added : list string) : forall s : ImportSet,
  NoDup s -> NoDup (addAll added s).
Proof.
  induction added as [| x added IH]; intros s Hs; simpl; [assumption |].
  apply IH, setAdd_NoDup, Hs.
Qed.

(** ** Write-only methods *)

Lemma WriteOnly_ret {A} (a : A) : WriteOnly (ret a).
Proof. exists (Some a), []. reflexivity. Qed.

Lemma WriteOnly_throw {A} : WriteOnly (@throw A).
Proof. exists None, []. reflexivity. Qed.

Lemma WriteOnly_addImport (x : string) : WriteOnly (addImport x).
Proof. exists (Some tt), [x]. reflexivity. Qed.

Lemma WriteOnly_bind {A B} (m : M A) (f : A -> M B) :
  WriteOnly m -> (forall a, WriteOnly (f a)) -> WriteOnly (bind m f).
Proof.
  intros [[a |] [added Hm]] Hf.
  - destruct (Hf a) as [v [added' Hfa]].
    exists v, (added ++ added')%list. intros s.
    unfold bind. rewrite Hm, Hfa, addAll_app. reflexivity.
  - exists None, added. intros s. unfold bind. rewrite Hm. reflexivity.
Qed.

Lemma WriteOnly_when (b : bool) (m : M unit) :
  WriteOnly m -> WriteOnly (when b m).
Proof. destruct b; simpl; [auto | intros _; apply WriteOnly_ret]. Qed.

Lemma WriteOnly_mapM {A B} (f : A -> M B) (l : list A) :
  (forall x, WriteOnly (f x)) -> WriteOnly (mapM f l).
Proof.
  intros Hf. induction l as [| x l IH]; simpl.
  - apply WriteOnly_ret.
  - apply WriteOnly_bind; [apply Hf | intros y].
    apply WriteOnly_bind; [apply IH | intros ys; apply WriteOnly_ret].
Qed.

Create HintDb writeonly.
#[export] Hint Resolve WriteOnly_ret WriteOnly_throw WriteOnly_addImport
  WriteOnly_when WriteOnly_mapM : writeonly.

Ltac write_only :=
  repeat first
    [ solve [auto with writeonly]
    | apply WriteOnly_ret | apply WriteOnly_throw | apply WriteOnly_addImport
    | apply WriteOnly_when | apply WriteOnly_mapM; intros ?
    | apply WriteOnly_bind; [| intros ?]
    | match goal with
      | |- WriteOnly (match ?x with _ => _ end) => destruct x
      | |- WriteOnly (if ?b then _ else _) => destruct b
      end ].

(** What a write-only method does to the import set. *)

Lemma WriteOnly_value {A} (m : M A) :
  WriteOnly m -> forall s1 s2, fst (m s1) = fst (m s2).
Proof. intros [v [added H]] s1 s2. rewrite !H. reflexivity. Qed.

Lemma WriteOnly_incl {A} (m : M A) :
  WriteOnly m -> forall s, incl s (snd (m s)).
Proof.
  intros [v [added H]] s y Hy. rewrite H. simpl. apply addAll_In. auto.
Qed.

Lemma WriteOnly_NoDup {A} (m : M A) :
  WriteOnly m -> forall s, NoDup s -> NoDup (snd (m s)).
Proof. intros [v [added H]] s Hs. rewrite H. simpl. apply addAll_NoDup, Hs. Qed.

(** Inversion of a successful [bind]. *)
Lemma bind_Some {A B} (m : M A) (f : A -> M B) s b s' :
  bind m f s = (Some b, s') ->
  exists a s1, m s = (Some a, s1) /\ f a s1 = (Some b, s').
Proof.
  unfold bind. destruct (m s) as [[a |] s1]; [eauto | discriminate].
Qed.

(** Every element of a successful [mapM] was visited, and what its visit
    established about the import set still holds at the end. *)
Lemma mapM_visited {A B} (f : A -> M B) (P : A -> ImportSet -> Prop) :
  (forall x, WriteOnly (f x)) ->
  (forall x s y s', f x s = (Some y, s') -> P x s') ->
  (forall x s s', P x s -> incl s s' -> P x s') ->
  forall l s ys s', mapM f l s = (Some ys, s') ->
  forall x, In x l -> P x s'.
Proof.
  intros Hw Hf Hmono. induction l as [| a l IH]; intros s ys s' Hrun x Hx.
  - destruct Hx.
  - simpl in Hrun. apply bind_Some in Hrun as (y & s1 & Hy & Hrun).
    apply bind_Some in Hrun as (zs & s2 & Hzs & Hrun).
    injection Hrun as _ <-.
    destruct Hx as [<- | Hx].
    + apply Hmono with s1; [eapply Hf; eassumption |].
      pose proof (WriteOnly_incl (WriteOnly_mapM f l Hw) s1) as Hincl.
      rewrite Hzs in Hincl. exact Hincl.
    + eapply IH; eassumption.
Qed.

(** ** Text *)

Lemma append_assoc (a b c : string) : (a ++ b) ++ c = a ++ b ++ c.
Proof. induction a as [| x a IH]; simpl; [reflexivity | rewrite IH; reflexivity]. Qed.

Lemma append_length (a b : string) :
  String.length (a ++ b) = String.length a + String.length b.
Proof. induction a as [| x a IH]; simpl; [reflexivity | rewrite IH; reflexivity]. Qed.

(** Two texts that agree and whose first parts have equal length have equal
    first parts. *)
Lemma append_inj_length (a b x y : string) :
  a ++ x = b ++ y -> String.length a = String.length b -> a = b.
Proof.
  revert b. induction a as [| c a IH]; intros [| d b] Heq Hlen; simpl in *;
    try discriminate; [reflexivity |].
  injection Heq as -> Heq. f_equal. apply IH; [assumption | lia].
Qed.

Lemma replaceNewlines_app (rep a b : string) :
  replaceNewlines rep (a ++ b) = replaceNewlines rep a ++ replaceNewlines rep b.
Proof.
  induction a as [| c a IH]; simpl; [reflexivity |].
  destruct (Ascii.eqb c (ascii_of_nat 10)); rewrite IH; simpl;
    [rewrite append_assoc |]; reflexivity.
Qed.

Lemma isNameContinue_not_newline (c : ascii) :
  isNameContinue c = true -> Ascii.eqb c (ascii_of_nat 10) = false.
Proof.
  destruct c as [[] [] [] [] [] [] [] []]; vm_compute; congruence.
Qed.

Lemma isNameStart_continue (c : ascii) :
  isNameStart c = true -> isNameContinue c = true.
Proof. unfold isNameContinue. intros ->. reflexivity. Qed.




(** Lines and indentation *)

Lemma noNewline_app (a b : string) :
  noNewline (a ++ b) = noNewline a && noNewline b.
Proof.
  unfold noNewline. induction a as [| c a IH]; simpl; [reflexivity |].
  rewrite IH. apply andb_assoc.
Qed.

Lemma isName_noNewline (s : string) : isName s = true -> noNewline s = true.
Proof.
  assert (Hall : forall r, allChars isNameContinue r = true -> noNewline r = true).
  { unfold noNewline. induction r as [| c r IH]; simpl; [reflexivity |].
    intros H. apply andb_prop in H as [Hc Hr].
    rewrite (isNameContinue_not_newline c Hc), (IH Hr). reflexivity. }
  destruct s as [| c s]; [discriminate |]. intros H.
  apply andb_prop in H as [Hc Hs]. apply (Hall (String c s)). simpl.
  rewrite (isNameStart_continue c Hc), Hs. reflexivity.
Qed.

Lemma replaceNewlines_noNewline (rep s : string) :
  noNewline s = true -> replaceNewlines rep s = s.
Proof.
  unfold noNewline. induction s as [| c s IH]; simpl; [reflexivity |].
  intros H. apply andb_prop in H as [Hc Hs].
  apply negb_true_iff in Hc. rewrite Hc, (IH Hs). reflexivity.
Qed.

Lemma append_empty_r (a : string) : a ++ "" = a.
Proof. induction a as [| c a IH]; simpl; [reflexivity | rewrite IH; reflexivity]. Qed.

Lemma replaceNewlines_join (rep : string) (ls : list string) :
  Forall (fun l => noNewline l = true) ls ->
  replaceNewlines rep (join nl ls) = join rep ls.
Proof.
  induction 1 as [| x ls Hx Hls IH]; [reflexivity |].
  destruct ls as [| y ls]; [apply replaceNewlines_noNewline, Hx |].
  change (join nl (x :: y :: ls)) with (x ++ nl ++ join nl (y :: ls)).
  change (join rep (x :: y :: ls)) with (x ++ rep ++ join rep (y :: ls)).
  rewrite !replaceNewlines_app, (replaceNewlines_noNewline rep x Hx), IH.
  f_equal. f_equal. simpl. apply append_empty_r.
Qed.

Lemma join_indented (ind : string) (ls : list string) :
  ls <> [] ->
  ind ++ join (nl ++ ind) ls = join nl (map (append ind) ls).
Proof.
  intros Hne. induction ls as [| x ls IH]; [contradiction |].
  destruct ls as [| y ls]; [reflexivity |].
  change (join (nl ++ ind) (x :: y :: ls)) with (x ++ (nl ++ ind) ++ join (nl ++ ind) (y :: ls)).
  change (join nl (map (append ind) (x :: y :: ls)))
    with ((ind ++ x) ++ nl ++ join nl (map (append ind) (y :: ls))).
  rewrite <- IH by discriminate. rewrite !append_assoc. reflexivity.
Qed.

(** Indenting a text made of single lines indents each line. *)
Lemma indentMultiline_lines (ls : list string) (count : nat) :
  ls <> [] ->
  Forall (fun l => noNewline l = true) ls ->
  indentMultiline (join nl ls) count = join nl (map (append (indentation count)) ls).
Proof.
  intros Hne Hls. unfold indentMultiline.
  rewrite (replaceNewlines_join _ Hls). apply join_indented, Hne.
Qed.

Lemma join_app (sep : string) (l1 l2 : list string) :
  l1 <> [] -> l2 <> [] ->
  join sep (l1 ++ l2) = join sep l1 ++ sep ++ join sep l2.
Proof.
  intros H1 H2. induction l1 as [| x l1 IH]; [contradiction |].
  destruct l1 as [| y l1].
  - simpl. destruct l2; [contradiction | reflexivity].
  - change (join sep ((x :: y :: l1) ++ l2)) with (x ++ sep ++ join sep ((y :: l1) ++ l2)).
    rewrite IH by discriminate.
    change (join sep (x :: y :: l1)) with (x ++ sep ++ join sep (y :: l1)).
    rewrite !append_assoc. reflexivity.
Qed.

(** The presence guard around a statement made of single lines: the guard
    line, the statement two levels deeper, the closing brace. *)
Lemma presenceGuard_lines (n : string) (statement : list string) :
  noNewline n = true ->
  statement <> [] ->
  Forall (fun l => noNewline l = true) statement ->
  presenceGuard n (join nl statement) =
    join nl (("  if(" ++ n ++ ".defined) {")
               :: List.app (map (append "    ") statement) ["  }"]).
Proof.
  intros Hn Hne Hlines. unfold presenceGuard, lines.
  rewrite (indentMultiline_lines 1 Hne Hlines).
  set (inner := map (append (indentation 1)) statement).
  assert (Hinner : inner <> [])
    by (unfold inner; destruct statement; [contradiction | discriminate]).
  assert (Hjoin : join nl ["if(" ++ n ++ ".defined) {"; join nl inner; "}"]
                  = join nl (("if(" ++ n ++ ".defined) {") :: List.app inner ["}"])).
  { clearbody inner. destruct inner as [| x inner']; [contradiction |].
    change (join nl (("if(" ++ n ++ ".defined) {") :: List.app (x :: inner') ["}"]))
      with (("if(" ++ n ++ ".defined) {") ++ nl ++ join nl (List.app (x :: inner') ["}"])).
    rewrite (join_app nl Hinner) by discriminate. reflexivity. }
  rewrite Hjoin. rewrite indentMultiline_lines; [| discriminate |].
  - simpl map. unfold inner. rewrite map_app, map_map. reflexivity.
  - constructor.
    + rewrite !noNewline_app, Hn. reflexivity.
    + apply Forall_app. split; [| repeat constructor].
      apply Forall_forall. intros l Hl. apply in_map_iff in Hl as (l0 & <- & Hl0).
      rewrite noNewline_app. rewrite Forall_forall in Hlines.
      rewrite (Hlines l0 Hl0). reflexivity.
Qed.

(** The null-check line determines the field it names. *)
Lemma checkNotNull_inj (f g : InputValueDefinitionNode) :
  checkNotNull f = checkNotNull g -> name f = name g.
Proof.
  unfold checkNotNull, indent. simpl. intros H.
  injection H as H.
  apply append_inj_length in H as Hn; [assumption |].
  apply (f_equal String.length) in H.
  rewrite !append_length in H. simpl in H. rewrite !append_length in H. simpl in H.
  lia.
Qed.

(** ** The visitor only writes to its import set *)

Section VisitorFacts.

Variable inherited : string -> option string.
Variable getType : string -> option GraphQLNamedType.
Variable scalars : string -> option string.
Variable package : string.
Variable Imports : ImportsTable.
Variable blockString : JavaDeclarationBlock -> string.

#[local] Abbreviation getActualType := (getActualType inherited getType scalars package Imports).
#[local] Abbreviation getFieldWithTypePrefix := (getFieldWithTypePrefix inherited getType scalars package Imports).
#[local] Abbreviation getFieldWriterCall := (getFieldWriterCall inherited getType).
#[local] Abbreviation buildFieldsMarshaller := (buildFieldsMarshaller inherited getType scalars package Imports).
#[local] Abbreviation builderBody := (builderBody inherited getType scalars package Imports).
#[local] Abbreviation buildBuilderNestedClass :=
  (buildBuilderNestedClass inherited getType scalars package Imports blockString).
#[local] Abbreviation classBlock := (classBlock inherited getType scalars package Imports blockString).
#[local] Abbreviation InputObjectTypeDefinition :=
  (InputObjectTypeDefinition inherited getType scalars package Imports blockString).

Lemma getActualType_WriteOnly t wrap : WriteOnly (getActualType t wrap).
Proof. unfold Visitor.getActualType. write_only. Qed.

Lemma getFieldWithTypePrefix_WriteOnly field w :
  WriteOnly (getFieldWithTypePrefix field w).
Proof.
  unfold Visitor.getFieldWithTypePrefix.
  pose proof getActualType_WriteOnly. write_only.
Qed.

Lemma buildFieldsMarshaller_WriteOnly field :
  WriteOnly (buildFieldsMarshaller field).
Proof.
  unfold Visitor.buildFieldsMarshaller.
  pose proof getActualType_WriteOnly. write_only.
Qed.

Lemma buildInputPrivateFields_WriteOnly fs :
  WriteOnly (buildInputPrivateFields inherited getType scalars package Imports fs).
Proof.
  unfold buildInputPrivateFields.
  pose proof getFieldWithTypePrefix_WriteOnly. write_only.
Qed.

Lemma buildInputCtor_WriteOnly className fs :
  WriteOnly (buildInputCtor inherited getType scalars package Imports className fs).
Proof.
  unfold buildInputCtor.
  pose proof getFieldWithTypePrefix_WriteOnly. write_only.
Qed.

Lemma buildInputGetters_WriteOnly fs :
  WriteOnly (buildInputGetters inherited getType scalars package Imports fs).
Proof.
  unfold buildInputGetters.
  pose proof getFieldWithTypePrefix_WriteOnly. write_only.
Qed.

Lemma buildMarshallerOverride_WriteOnly fs :
  WriteOnly (buildMarshallerOverride inherited getType scalars package Imports fs).
Proof.
  unfold buildMarshallerOverride.
  pose proof buildFieldsMarshaller_WriteOnly. write_only.
Qed.

Lemma builderBody_WriteOnly className fs : WriteOnly (builderBody className fs).
Proof.
  unfold Visitor.builderBody, builderPrivateFields, builderSetters, nonNullFields.
  pose proof getFieldWithTypePrefix_WriteOnly. write_only.
Qed.

Lemma buildBuilderNestedClass_WriteOnly className fs :
  WriteOnly (buildBuilderNestedClass className fs).
Proof.
  unfold Visitor.buildBuilderNestedClass.
  pose proof builderBody_WriteOnly. write_only.
Qed.

Lemma classBlock_WriteOnly node : WriteOnly (classBlock node).
Proof.
  unfold Visitor.classBlock.
  pose proof buildInputPrivateFields_WriteOnly.
  pose proof buildInputCtor_WriteOnly.
  pose proof buildInputGetters_WriteOnly.
  pose proof buildMarshallerOverride_WriteOnly.
  pose proof buildBuilderNestedClass_WriteOnly.
  write_only.
Qed.

Lemma InputObjectTypeDefinition_WriteOnly node :
  WriteOnly (InputObjectTypeDefinition node).
Proof.
  unfold Visitor.InputObjectTypeDefinition.
  pose proof classBlock_WriteOnly. write_only.
Qed.

End VisitorFacts.

(** ** The marshaller *)

(** What the two lookups give when no inherited member is in the way. *)
Lemma orDefault_lookup (inherited own : string -> option string) (key dflt : string) :
  (own key = None -> inherited key = None) ->
  orDefault (lookup inherited own key) dflt = JSString (orElse (own key) dflt).
Proof.
  intros H. unfold lookup, orElse, truthy.
  destruct (own key) as [[| c v] |]; try reflexivity.
  rewrite (H eq_refl). reflexivity.
Qed.

(** Wrapping a string yields a string. *)
Lemma wrapTypeWithModifiers_string (baseType : string) (t : TypeNode) (listType : string) :
  wrapTypeWithModifiers (JSString baseType) t listType =
    JSString (toText (wrapTypeWithModifiers (JSString baseType) t listType)).
Proof. induction t as [n | t IH | t IH]; simpl; [reflexivity | reflexivity | exact IH]. Qed.

Section MarshallerFacts.

Variable inherited : string -> option string.
Variable getType : string -> option GraphQLNamedType.
Variable scalars : string -> option string.
Variable package : string.
Variable Imports : ImportsTable.

#[local] Abbreviation getActualType := (getActualType inherited getType scalars package Imports).
#[local] Abbreviation getFieldWriterCall := (getFieldWriterCall inherited getType).
#[local] Abbreviation buildFieldsMarshaller :=
  (buildFieldsMarshaller inherited getType scalars package Imports).

(** Type resolution returns when the base type is in the schema and, for a
    scalar without a mapping, its name is not that of an inherited member;
    it yields the mapped scalar, [Object], or the type's own name. *)
Lemma getActualType_resolves t st wrap s :
  getType (getBaseTypeNode t) = Some st ->
  (typeKind st = ScalarType -> scalars (typeName st) = None ->
   inherited (typeName st) = None) ->
  exists s',
    getActualType t wrap s =
      (Some (let typeToUse :=
               match typeKind st with
               | ScalarType => orElse (scalars (typeName st)) "Object"
               | _ => typeName st
               end in
             if wrap then toText (wrapTypeWithModifiers (JSString typeToUse) t "List")
             else typeToUse), s').
Proof.
  intros Hst Hown. unfold Visitor.getActualType. rewrite Hst.
  destruct st as [k n]. simpl in Hown.
  destruct k; simpl; try rewrite (orDefault_lookup inherited scalars n "Object" (Hown eq_refl));
    unfold bind, when, addImport, ret; simpl;
    repeat match goal with
           | |- context [match truthy ?x with _ => _ end] => destruct (truthy x); simpl
           end;
    destruct wrap; try rewrite wrapTypeWithModifiers_string; simpl;
    repeat match goal with
           | |- context [if ?b then _ else _] => destruct b; simpl
           end; eexists; reflexivity.
Qed.

Lemma getActualType_unknown t wrap s :
  getType (getBaseTypeNode t) = None -> getActualType t wrap s = (None, s).
Proof. intros H. unfold Visitor.getActualType. rewrite H. reflexivity. Qed.

(** A scalar without a mapping whose name is that of an inherited member
    resolves to that member, which is no string: unwrapped, it makes the
    resolver throw. *)
Lemma getActualType_inherited t st text s :
  getType (getBaseTypeNode t) = Some st ->
  typeKind st = ScalarType ->
  scalars (typeName st) = None ->
  inherited (typeName st) = Some text ->
  fst (getActualType t false s) = None.
Proof.
  intros Hst Hk Hown Hinh. unfold Visitor.getActualType. rewrite Hst.
  destruct st as [k n]. simpl in Hk, Hown, Hinh. subst k. simpl.
  unfold lookup. rewrite Hown, Hinh. simpl.
  unfold bind, addImport, ret.
  destruct (truthy (Imports_lookup Imports text)); reflexivity.
Qed.

(** The statement emitted for a field whose type resolves. *)
Lemma buildFieldsMarshaller_resolves field st s :
  getType (getBaseTypeNode (type field)) = Some st ->
  (typeKind st = ScalarType -> scalars (typeName st) = None ->
   inherited (typeName st) = None) ->
  exists s',
    buildFieldsMarshaller field s =
      (Some (let listItemType :=
               match typeKind st with
               | ScalarType => orElse (scalars (typeName st)) "Object"
               | _ => typeName st
               end in
             let call := getFieldWriterCall field (isArrayType (type field)) in
             let result :=
               if isArrayType (type field)
               then listWriter (name field) listItemType call
               else indent ("writer." ++ call ++ ";") 1 in
             if isNonNullType (type field) then result
             else presenceGuard (name field) result), s').
Proof.
  intros Hst Hown. unfold Visitor.buildFieldsMarshaller, bind.
  destruct (getActualType_resolves (type field) false s Hst Hown) as [s' ->].
  exists s'. simpl. destruct (isNonNullType (type field)); reflexivity.
Qed.

(** The non-list writer call of an input-object field, required or not. *)
Lemma getFieldWriterCall_input_object field st :
  getType (getBaseTypeNode (type field)) = Some st ->
  typeKind st = InputObjectType ->
  getFieldWriterCall field false =
    "writeObject(" ++ dq ++ name field ++ dq ++ ", " ++ name field
      ++ ".value != null ? " ++ name field ++ ".value.marshaller() : null)".
Proof.
  intros Hst Hk. unfold Visitor.getFieldWriterCall. rewrite Hst.
  destruct st as [k n]. simpl in Hk. subst k. reflexivity.
Qed.

(** The writer call of a scalar field. *)
Lemma getFieldWriterCall_scalar field st listItemCall :
  getType (getBaseTypeNode (type field)) = Some st ->
  typeKind st = ScalarType ->
  getFieldWriterCall field listItemCall =
    let writerMethod :=
      toText (orDefault (lookup inherited SCALAR_TO_WRITER_METHOD (typeName st))
                "writeCustom") in
    if listItemCall then writerMethod ++ "($item)"
    else writerMethod ++ "(" ++ dq ++ name field ++ dq ++ ", " ++ name field
           ++ (if isNonNullType (type field) then "" else ".value") ++ ")".
Proof.
  intros Hst Hk. unfold Visitor.getFieldWriterCall. rewrite Hst.
  destruct st as [k n]. simpl in Hk. subst k. reflexivity.
Qed.

(** The statement of a field, line by line, before any guard. *)
Lemma statement_lines (n listItemType call : string) (isArray : bool) :
  (if isArray then listWriter n listItemType call
   else indent ("writer." ++ call ++ ";") 1)
  = join nl
      (if isArray then
         [ "writer.writeList(" ++ dq ++ n ++ dq ++ ", " ++ n
             ++ ".value != null ? new InputFieldWriter.ListWriter() {";
           "  @Override";
           "  public void write(InputFieldWriter.ListItemWriter listItemWriter) throws IOException {";
           "    for (" ++ listItemType ++ " $item : " ++ n ++ ".value) {";
           "      listItemWriter." ++ call ++ ";";
           "    }";
           "  }";
           "} : null);" ]
       else [ "  writer." ++ call ++ ";" ]).
Proof. destruct isArray; reflexivity. Qed.

Lemma statement_lines_single (n listItemType call : string) (isArray : bool) :
  noNewline n = true -> noNewline listItemType = true -> noNewline call = true ->
  Forall (fun l => noNewline l = true)
    (if isArray then
       [ "writer.writeList(" ++ dq ++ n ++ dq ++ ", " ++ n
           ++ ".value != null ? new InputFieldWriter.ListWriter() {";
         "  @Override";
         "  public void write(InputFieldWriter.ListItemWriter listItemWriter) throws IOException {";
         "    for (" ++ listItemType ++ " $item : " ++ n ++ ".value) {";
         "      listItemWriter." ++ call ++ ";";
         "    }";
         "  }";
         "} : null);" ]
     else [ "  writer." ++ call ++ ";" ]).
Proof.
  intros Hn Ht Hc.
  destruct isArray; repeat constructor;
    rewrite ?noNewline_app, ?Hn, ?Ht, ?Hc; reflexivity.
Qed.

(** C1 (the code departs from the claim): for the required input-object
    field [ref: OtherInput!] the emitted writer call still null-coalesces
    through [ref.value], exactly as for the optional field [ref: OtherInput];
    it does not pass [ref.marshaller()] directly. *)
Theorem required_input_object_null_coalesced :
  Visitor.getFieldWriterCall Demo.inherited Demo.getType Demo.requiredRef false
    = "writeObject(" ++ dq ++ "ref" ++ dq
        ++ ", ref.value != null ? ref.value.marshaller() : null)"
  /\ Visitor.getFieldWriterCall Demo.inherited Demo.getType Demo.requiredRef false
     = Visitor.getFieldWriterCall Demo.inherited Demo.getType Demo.ref false
  /\ includes "!= null"
       (Visitor.getFieldWriterCall Demo.inherited Demo.getType Demo.requiredRef false) = true
  /\ fst (Visitor.buildFieldsMarshaller Demo.inherited Demo.getType Demo.scalars Demo.package
            Demo.Imports Demo.requiredRef [])
     = Some ("  writer.writeObject(" ++ dq ++ "ref" ++ dq
               ++ ", ref.value != null ? ref.value.marshaller() : null);").
Proof. repeat split; reflexivity. Qed.

(** C2 (the code departs from the claim): the required list field
    [tags: [String]!] is serialized from [tags.value], not from the raw
    field, while the required scalar [id: ID!] is written from the raw
    field [id]. *)
Theorem required_list_reads_value_member :
  fst (Visitor.buildFieldsMarshaller Demo.inherited Demo.getType Demo.scalars Demo.package
         Demo.Imports Demo.requiredTags [])
    = Some (listWriter "tags" "String" "writeString($item)")
  /\ includes "for (String $item : tags.value)"
       (listWriter "tags" "String" "writeString($item)") = true
  /\ includes ("writer.writeList(" ++ dq ++ "tags" ++ dq ++ ", tags.value != null ?")
       (listWriter "tags" "String" "writeString($item)") = true
  /\ fst (Visitor.buildFieldsMarshaller Demo.inherited Demo.getType Demo.scalars Demo.package
            Demo.Imports Demo.id [])
     = Some ("  writer.writeString(" ++ dq ++ "id" ++ dq ++ ", id);").
Proof. repeat split; reflexivity. Qed.


(** C4: for a list field whose items are of an input-object type the
    per-item writer call is [writeObject($item.marshaller())], applied to
    the item itself without a null check, whatever the nullability of the
    item type or of the list: the loop of the emitted list writer holds the
    single line [listItemWriter.writeObject($item.marshaller());]. *)
Theorem list_item_object_call field st :
  isArrayType (type field) = true ->
  getType (getBaseTypeNode (type field)) = Some st ->
  typeKind st = InputObjectType ->
  isName (name field) = true ->
  isName (typeName st) = true ->
  getFieldWriterCall field true = "writeObject($item.marshaller())"
  /\ includes "null" (getFieldWriterCall field true) = false
  /\ forall s, exists s',
       buildFieldsMarshaller field s =
         (Some (join nl
                  (let block :=
                     [ "writer.writeList(" ++ dq ++ name field ++ dq ++ ", " ++ name field
                         ++ ".value != null ? new InputFieldWriter.ListWriter() {";
                       "  @Override";
                       "  public void write(InputFieldWriter.ListItemWriter listItemWriter) throws IOException {";
                       "    for (" ++ typeName st ++ " $item : " ++ name field ++ ".value) {";
                       "      listItemWriter.writeObject($item.marshaller());";
                       "    }";
                       "  }";
                       "} : null);" ] in
                   if isNonNullType (type field) then block
                   else ("  if(" ++ name field ++ ".defined) {")
                          :: List.app (map (append "    ") block) ["  }"])), s').
Proof.
  intros Harr Hst Hk Hname Htype.
  assert (Hcall : getFieldWriterCall field true = "writeObject($item.marshaller())").
  { unfold Visitor.getFieldWriterCall. rewrite Hst.
    destruct st as [k n]. simpl in Hk. subst k. reflexivity. }
  split; [exact Hcall |]. split; [rewrite Hcall; reflexivity |].
  intros s.
  destruct (buildFieldsMarshaller_resolves field s Hst) as [s' Hrun];
    [rewrite Hk; discriminate |].
  exists s'. rewrite Hrun, Hk. cbv zeta. rewrite statement_lines, Harr, Hcall.
  destruct (isNonNullType (type field)); [reflexivity |].
  f_equal. f_equal. apply presenceGuard_lines; [| discriminate |].
  - apply isName_noNewline, Hname.
  - apply (statement_lines_single (name field) (typeName st)
             "writeObject($item.marshaller())" true);
      [apply isName_noNewline, Hname | apply isName_noNewline, Htype | reflexivity].
Qed.

(** C5: for an optional list field of [String] items such as
    [tags: [String]] the marshaller emits the presence guard around a
    list-writer block whose per-item call is the one-argument
    [writeString($item)], never the two-argument named form; the text is
    spelled out line by line. *)
Theorem optional_string_list field items :
  type field = ListType items ->
  getType (getBaseTypeNode items) = Some {| typeKind := ScalarType; typeName := "String" |} ->
  (scalars "String" = None -> inherited "String" = None) ->
  isName (name field) = true ->
  noNewline (orElse (scalars "String") "Object") = true ->
  getFieldWriterCall field true = "writeString($item)"
  /\ (forall value, getFieldWriterCall field true
        <> "writeString(" ++ dq ++ name field ++ dq ++ ", " ++ value ++ ")")
  /\ forall s, exists s',
       buildFieldsMarshaller field s =
         (Some (join nl
                  [ "  if(" ++ name field ++ ".defined) {";
                    "    writer.writeList(" ++ dq ++ name field ++ dq ++ ", " ++ name field
                      ++ ".value != null ? new InputFieldWriter.ListWriter() {";
                    "      @Override";
                    "      public void write(InputFieldWriter.ListItemWriter listItemWriter) throws IOException {";
                    "        for (" ++ orElse (scalars "String") "Object" ++ " $item : "
                      ++ name field ++ ".value) {";
                    "          listItemWriter.writeString($item);";
                    "        }";
                    "      }";
                    "    } : null);";
                    "  }" ]), s').
Proof.
  intros Hty Hst Hown Hname Hjava.
  assert (Hbase : getType (getBaseTypeNode (type field))
                  = Some {| typeKind := ScalarType; typeName := "String" |})
    by (rewrite Hty; exact Hst).
  assert (Hcall : getFieldWriterCall field true = "writeString($item)")
    by (rewrite (getFieldWriterCall_scalar field true Hbase eq_refl); reflexivity).
  split; [exact Hcall |]. split.
  - intros value. rewrite Hcall. simpl. discriminate.
  - intros s.
    destruct (buildFieldsMarshaller_resolves field s Hbase) as [s' Hrun];
      [intros _; exact Hown |].
    exists s'. rewrite Hrun. cbv zeta.
    replace (isArrayType (type field)) with true by (rewrite Hty; reflexivity).
    replace (isNonNullType (type field)) with false by (rewrite Hty; reflexivity).
    rewrite Hcall. simpl typeKind. simpl typeName. cbv iota.
    rewrite (statement_lines (name field) (orElse (scalars "String") "Object")
               "writeString($item)" true).
    f_equal. f_equal.
    rewrite presenceGuard_lines; [reflexivity | | discriminate |].
    + apply isName_noNewline, Hname.
    + apply (statement_lines_single (name field) (orElse (scalars "String") "Object")
               "writeString($item)" true);
        [apply isName_noNewline, Hname | exact Hjava | reflexivity].
Qed.

End MarshallerFacts.

(** ** The import list *)

Lemma append_inj_r (a b c : string) : a ++ c = b ++ c -> a = b.
Proof.
  intros H. apply append_inj_length in H as Hab; [assumption |].
  apply (f_equal String.length) in H. rewrite !append_length in H. lia.
Qed.

Lemma import_statement_inj (a b : string) :
  "import " ++ a ++ ";" = "import " ++ b ++ ";" -> a = b.
Proof. simpl. intros H. injection H as H. apply append_inj_r in H. exact H. Qed.

(** The [imports] getter keeps the entries of the set distinct. *)
Lemma imports_NoDup (s : ImportSet) : NoDup s -> NoDup (imports s).
Proof.
  intros Hs. unfold imports. apply Injective_map_NoDup; [| exact Hs].
  intros a b. apply import_statement_inj.
Qed.

Lemma imports_In (s : ImportSet) (x : string) :
  In x s -> In ("import " ++ x ++ ";") (imports s).
Proof. intros H. unfold imports. apply (in_map (fun imp => "import " ++ imp ++ ";")), H. Qed.

(** A write-only method leaves the import set it started from in place. *)
Lemma run_incl {A} (m : M A) s v s' :
  WriteOnly m -> m s = (v, s') -> incl s s'.
Proof. intros Hw Hrun. pose proof (WriteOnly_incl Hw s) as H. rewrite Hrun in H. exact H. Qed.

Arguments run_incl {A m s v s'} _ _.

(** What a method has added is still there after a write-only continuation,
    whether the method returned or threw. *)
Lemma bind_keeps {A B} (m : M A) (f : A -> M B) (x : string) :
  (forall s, In x (snd (m s))) ->
  (forall a, WriteOnly (f a)) ->
  forall s, In x (snd (bind m f s)).
Proof.
  intros Hm Hf s. unfold bind. specialize (Hm s).
  destruct (m s) as [[a |] s1]; simpl in *; [| exact Hm].
  apply (WriteOnly_incl (Hf a) s1), Hm.
Qed.

Section ImportFacts.

Variable inherited : string -> option string.
Variable getType : string -> option GraphQLNamedType.
Variable scalars : string -> option string.
Variable package : string.
Variable Imports : ImportsTable.
Variable blockString : JavaDeclarationBlock -> string.

#[local] Abbreviation getActualType := (getActualType inherited getType scalars package Imports).
#[local] Abbreviation getFieldWithTypePrefix :=
  (getFieldWithTypePrefix inherited getType scalars package Imports).
#[local] Abbreviation buildInputPrivateFields :=
  (buildInputPrivateFields inherited getType scalars package Imports).
#[local] Abbreviation classBlock := (classBlock inherited getType scalars package Imports blockString).
#[local] Abbreviation InputObjectTypeDefinition :=
  (InputObjectTypeDefinition inherited getType scalars package Imports blockString).

(** Resolving an input-object type records its qualified class name. *)
Lemma getActualType_records_class t st wrap s v s' :
  getType (getBaseTypeNode t) = Some st ->
  typeKind st = InputObjectType ->
  getActualType t wrap s = (v, s') ->
  In (package ++ "." ++ typeName st) s'.
Proof.
  intros Hst Hk Hrun.
  assert (Hall : forall s0, In (package ++ "." ++ typeName st)
                              (snd (getActualType t wrap s0))).
  { unfold Visitor.getActualType. rewrite Hst.
    destruct st as [k n]. simpl in Hk. subst k. simpl.
    apply bind_keeps; [| intros; write_only].
    intros s0. simpl. apply setAdd_In. auto. }
  specialize (Hall s). rewrite Hrun in Hall. exact Hall.
Qed.

Lemma getFieldWithTypePrefix_records_class field st w s decl s' :
  getType (getBaseTypeNode (type field)) = Some st ->
  typeKind st = InputObjectType ->
  getFieldWithTypePrefix field w s = (Some decl, s') ->
  In (package ++ "." ++ typeName st) s'.
Proof.
  intros Hst Hk Hrun. unfold Visitor.getFieldWithTypePrefix in Hrun.
  apply bind_Some in Hrun as ([] & s1 & _ & Hrun).
  apply bind_Some in Hrun as (typeToUse & s2 & Hty & Hrun).
  apply (getActualType_records_class _ _ _ Hst Hk) in Hty.
  refine (run_incl _ Hrun _ Hty). write_only.
Qed.

(** The optional-box import is recorded first thing, for every field. *)
Lemma getFieldWithTypePrefix_records_Input field w s :
  In (Imports_Input Imports) (snd (getFieldWithTypePrefix field w s)).
Proof.
  unfold Visitor.getFieldWithTypePrefix.
  apply bind_keeps.
  - intros s0. simpl. apply setAdd_In. auto.
  - intros _. pose proof (getActualType_WriteOnly inherited getType scalars package Imports).
    write_only.
Qed.

(** C6: after a class has been generated, the returned import list has no
    duplicate entries, and for every field of an input-object type the
    import of its qualified class name (package, dot, type name) occurs in
    it exactly once, however many fields refer to that type. *)
Theorem class_import_once node s text s' :
  NoDup s ->
  InputObjectTypeDefinition node s = (Some text, s') ->
  NoDup (imports s')
  /\ forall field st,
       In field (fields node) ->
       getType (getBaseTypeNode (type field)) = Some st ->
       typeKind st = InputObjectType ->
       count_occ string_dec (imports s')
         ("import " ++ (package ++ "." ++ typeName st) ++ ";") = 1.
Proof.
  intros Hs Hrun.
  assert (Hnodup : NoDup (imports s')).
  { pose proof (WriteOnly_NoDup
                  (InputObjectTypeDefinition_WriteOnly inherited getType scalars package Imports
                     blockString node) Hs) as H.
    rewrite Hrun in H. apply imports_NoDup, H. }
  split; [exact Hnodup |].
  intros field st Hin Hst Hk.
  apply NoDup_count_occ'; [exact Hnodup |]. apply imports_In.
  unfold Visitor.InputObjectTypeDefinition in Hrun.
  apply bind_Some in Hrun as (block & s1 & Hblock & Hrun).
  injection Hrun as _ <-.
  unfold Visitor.classBlock in Hblock.
  apply bind_Some in Hblock as ([] & s2 & _ & Hblock).
  apply bind_Some in Hblock as ([] & s3 & _ & Hblock).
  apply bind_Some in Hblock as (privateFields & s4 & Hpriv & Hrest).
  assert (Hhere : In (package ++ "." ++ typeName st) s4).
  { unfold Visitor.buildInputPrivateFields in Hpriv.
    apply bind_Some in Hpriv as (decls & s5 & Hdecls & Hret).
    injection Hret as _ <-.
    revert st Hst Hk.
    refine (mapM_visited _
              (fun f s0 => forall st0,
                 getType (getBaseTypeNode (type f)) = Some st0 ->
                 typeKind st0 = InputObjectType ->
                 In (package ++ "." ++ typeName st0) s0)
              _ _ _ _ _ Hdecls field Hin).
    - intros x. pose proof (getFieldWithTypePrefix_WriteOnly inherited getType scalars package Imports).
      write_only.
    - intros x s0 y s0' Hx st0 Hst0 Hk0.
      apply bind_Some in Hx as (fieldType & s6 & Hx & Hret).
      injection Hret as _ <-.
      eapply getFieldWithTypePrefix_records_class; eassumption.
    - intros x s0 s0' HP Hincl st0 Hst0 Hk0. apply Hincl, HP; assumption. }
  refine (run_incl _ Hrest _ Hhere).
  pose proof (buildInputCtor_WriteOnly inherited getType scalars package Imports).
  pose proof (buildInputGetters_WriteOnly inherited getType scalars package Imports).
  pose proof (buildMarshallerOverride_WriteOnly inherited getType scalars package Imports).
  pose proof (buildBuilderNestedClass_WriteOnly inherited getType scalars package Imports blockString).
  write_only.
Qed.

(** C9: generating a class is a function of the schema, the type
    definition, the configuration and the visitor's import set, and the
    import set is the only state it touches: the class text does not depend
    on the import set the visitor started with, the import set after
    generation is the one before it extended by a sequence of additions that
    the schema, the definition and the configuration alone determine, and
    two runs that start from equal import sets end with the same text and
    equal import sets. *)
Theorem generation_deterministic node :
  (forall s1 s2,
     fst (InputObjectTypeDefinition node s1) = fst (InputObjectTypeDefinition node s2))
  /\ (exists added, forall s,
        snd (InputObjectTypeDefinition node s) = addAll added s)
  /\ (forall s x, In x s -> In x (snd (InputObjectTypeDefinition node s)))
  /\ (forall s1 s2,
        (forall x, In x s1 <-> In x s2) ->
        fst (InputObjectTypeDefinition node s1) = fst (InputObjectTypeDefinition node s2)
        /\ forall x, In x (snd (InputObjectTypeDefinition node s1))
                     <-> In x (snd (InputObjectTypeDefinition node s2))).
Proof.
  pose proof (InputObjectTypeDefinition_WriteOnly inherited getType scalars package Imports
                blockString node) as Hw.
  split; [apply WriteOnly_value, Hw |]. split; [| split].
  - destruct Hw as [v [added H]]. exists added. intros s. rewrite H. reflexivity.
  - intros s x Hx. apply (WriteOnly_incl Hw s), Hx.
  - intros s1 s2 Hsame. split; [apply WriteOnly_value, Hw |].
    destruct Hw as [v [added H]]. intros x. rewrite !H. simpl.
    rewrite !addAll_In, Hsame. reflexivity.
Qed.

(** C10: describing a field records the optional-box ([Input]) import
    unconditionally, for required fields and without the wrapper too, so
    the import list of a class with at least one field contains it. *)
Theorem input_import_unconditional node :
  fields node <> [] ->
  (forall field wrapper s,
     In (Imports_Input Imports) (snd (getFieldWithTypePrefix field wrapper s)))
  /\ forall s,
       In ("import " ++ Imports_Input Imports ++ ";")
          (imports (snd (InputObjectTypeDefinition node s))).
Proof.
  intros Hne. split; [apply getFieldWithTypePrefix_records_Input |].
  intros s. apply imports_In.
  destruct node as [className [| f fs]]; [contradiction |].
  pose proof (getFieldWithTypePrefix_WriteOnly inherited getType scalars package Imports).
  pose proof (buildInputCtor_WriteOnly inherited getType scalars package Imports).
  pose proof (buildInputGetters_WriteOnly inherited getType scalars package Imports).
  pose proof (buildMarshallerOverride_WriteOnly inherited getType scalars package Imports).
  pose proof (buildBuilderNestedClass_WriteOnly inherited getType scalars package Imports blockString).
  unfold Visitor.InputObjectTypeDefinition.
  apply bind_keeps; [| intros; write_only].
  unfold Visitor.classBlock. simpl fields.
  intros s0. unfold bind at 1. simpl. unfold bind at 1. simpl.
  apply bind_keeps; [| intros; write_only].
  unfold Visitor.buildInputPrivateFields.
  apply bind_keeps; [| intros; write_only].
  simpl mapM.
  apply bind_keeps; [| intros; write_only].
  apply bind_keeps; [| intros; write_only].
  apply getFieldWithTypePrefix_records_Input.
Qed.

End ImportFacts.

(** ** Methods that cannot throw *)

Lemma Returns_ret {A} (a : A) : Returns (ret a).
Proof. intros s. exists a, s. reflexivity. Qed.

Lemma Returns_addImport (x : string) : Returns (addImport x).
Proof. intros s. exists tt, (setAdd x s). reflexivity. Qed.

Lemma Returns_bind {A B} (m : M A) (f : A -> M B) :
  Returns m -> (forall a, Returns (f a)) -> Returns (bind m f).
Proof.
  intros Hm Hf s. destruct (Hm s) as (a & s1 & Ha).
  destruct (Hf a s1) as (b & s' & Hb). exists b, s'.
  unfold bind. rewrite Ha. exact Hb.
Qed.

Lemma Returns_when (b : bool) (m : M unit) : Returns m -> Returns (when b m).
Proof. destruct b; simpl; [auto | intros _; apply Returns_ret]. Qed.

Lemma Returns_mapM {A B} (f : A -> M B) (l : list A) :
  (forall x, In x l -> Returns (f x)) -> Returns (mapM f l).
Proof.
  induction l as [| x l IH]; intros Hf; simpl.
  - apply Returns_ret.
  - apply Returns_bind; [apply Hf; left; reflexivity | intros y].
    apply Returns_bind; [| intros ys; apply Returns_ret].
    apply IH. intros z Hz. apply Hf. right. exact Hz.
Qed.

Ltac returns :=
  repeat first
    [ solve [auto]
    | apply Returns_ret | apply Returns_addImport | apply Returns_when
    | apply Returns_mapM; intros ? ?
    | apply Returns_bind; [| intros ?]
    | match goal with
      | |- Returns (if ?b then _ else _) => destruct b
      end ].

Section TotalityFacts.

Variable inherited : string -> option string.
Variable getType : string -> option GraphQLNamedType.
Variable scalars : string -> option string.
Variable package : string.
Variable Imports : ImportsTable.
Variable blockString : JavaDeclarationBlock -> string.

#[local] Abbreviation getActualType := (getActualType inherited getType scalars package Imports).
#[local] Abbreviation getFieldWithTypePrefix :=
  (getFieldWithTypePrefix inherited getType scalars package Imports).
#[local] Abbreviation getFieldWriterCall := (getFieldWriterCall inherited getType).
#[local] Abbreviation buildFieldsMarshaller :=
  (buildFieldsMarshaller inherited getType scalars package Imports).
#[local] Abbreviation buildBuilderNestedClass :=
  (buildBuilderNestedClass inherited getType scalars package Imports blockString).
#[local] Abbreviation InputObjectTypeDefinition :=
  (InputObjectTypeDefinition inherited getType scalars package Imports blockString).

Lemma resolvable_inv t :
  resolvable inherited getType scalars t = true ->
  exists st, getType (getBaseTypeNode t) = Some st
             /\ (typeKind st = ScalarType -> scalars (typeName st) = None ->
                 inherited (typeName st) = None).
Proof.
  unfold resolvable. intros H.
  destruct (getType (getBaseTypeNode t)) as [st |]; [| discriminate].
  exists st. split; [reflexivity |]. intros Hk Hown.
  rewrite Hk, Hown in H. destruct (inherited (typeName st)); [discriminate | reflexivity].
Qed.

Lemma getActualType_Returns t wrap :
  resolvable inherited getType scalars t = true -> Returns (getActualType t wrap).
Proof.
  intros Hres s. destruct (resolvable_inv t Hres) as (st & Hst & Hown).
  destruct (getActualType_resolves inherited getType scalars package Imports t wrap s Hst Hown)
    as [s' H].
  eauto.
Qed.

Lemma getFieldWithTypePrefix_Returns field w :
  resolvable inherited getType scalars (type field) = true ->
  Returns (getFieldWithTypePrefix field w).
Proof.
  intros Hres. unfold Visitor.getFieldWithTypePrefix.
  pose proof (getActualType_Returns (type field) true Hres). returns.
Qed.

Lemma buildFieldsMarshaller_Returns field :
  resolvable inherited getType scalars (type field) = true ->
  Returns (buildFieldsMarshaller field).
Proof.
  intros Hres. unfold Visitor.buildFieldsMarshaller.
  pose proof (getActualType_Returns (type field) false Hres). returns.
Qed.

(** Generation of a class returns as soon as the type of every field
    resolves. *)
Lemma InputObjectTypeDefinition_Returns node :
  (forall field, In field (fields node) -> resolvable inherited getType scalars (type field) = true) ->
  Returns (InputObjectTypeDefinition node).
Proof.
  intros Hall.
  assert (Hdescribe : forall field w, In field (fields node) ->
                        Returns (getFieldWithTypePrefix field w))
    by (intros; apply getFieldWithTypePrefix_Returns; auto).
  assert (Hmarshal : forall field, In field (fields node) ->
                       Returns (buildFieldsMarshaller field))
    by (intros; apply buildFieldsMarshaller_Returns; auto).
  unfold Visitor.InputObjectTypeDefinition, classBlock, buildInputPrivateFields,
    buildInputCtor, buildInputGetters, buildMarshallerOverride,
    Visitor.buildBuilderNestedClass, builderBody, builderPrivateFields,
    builderSetters, nonNullFields.
  returns.
Qed.


End TotalityFacts.

(** ** The builder *)

Section BuilderFacts.

Variable inherited : string -> option string.
Variable getType : string -> option GraphQLNamedType.
Variable scalars : string -> option string.
Variable package : string.
Variable Imports : ImportsTable.
Variable blockString : JavaDeclarationBlock -> string.

#[local] Abbreviation buildBuilderNestedClass :=
  (buildBuilderNestedClass inherited getType scalars package Imports blockString).

(** The null-checks of [build()]: one per required field, in declaration
    order; collecting them cannot throw. *)
Lemma nonNullFields_checks fs s :
  exists s',
    nonNullFields Imports fs s =
      (Some (map checkNotNull (filter (fun f => isNonNullType (type f)) fs)), s').
Proof.
  unfold nonNullFields.
  generalize (filter (fun f => isNonNullType (type f)) fs) as required.
  intros required. revert s.
  induction required as [| f required IH]; intros s; simpl.
  - exists s. reflexivity.
  - unfold bind, addImport, ret in *.
    destruct (IH (setAdd (Imports_Utils Imports) s)) as [s' ->].
    exists s'. reflexivity.
Qed.

(** Fields with distinct names are told apart by their null-check lines. *)
Lemma checkNotNull_In_required fs f :
  NoDup (map name fs) ->
  In f fs ->
  In (checkNotNull f) (map checkNotNull (filter (fun g => isNonNullType (type g)) fs)) ->
  isNonNullType (type f) = true.
Proof.
  intros Hnames Hf Hin.
  apply in_map_iff in Hin as (g & Heq & Hg).
  apply filter_In in Hg as [Hg Hrequired].
  apply checkNotNull_inj in Heq.
  assert (g = f) as <-; [| exact Hrequired].
  clear Hrequired. induction fs as [| h fs IH]; [destruct Hf |].
  simpl in Hnames. inversion Hnames as [| ? ? Hfresh Hrest]; subst.
  destruct Hf as [-> | Hf], Hg as [-> | Hg]; auto.
  - exfalso. apply Hfresh. rewrite <- Heq. apply in_map, Hg.
  - exfalso. apply Hfresh. rewrite Heq. apply in_map, Hf.
Qed.

(** C8: in the builder, [build()] performs one null-check per required
    field and for no other field, each naming its field, placed before the
    constructor invocation, which receives all fields, required and
    optional, in declaration order. *)
Theorem build_checks_required className fs s text s' :
  NoDup (map name fs) ->
  buildBuilderNestedClass className fs s = (Some text, s') ->
  exists privateFields setters checks,
    text = indentMultiline (blockString {|
             blockAnnotations := [];
             blockAccess := "public";
             blockFinal := true;
             blockStatic := true;
             blockKind := "class";
             blockName := "Builder";
             blockBody :=
               join nl (privateFields ++ [(nl ++ indent "Builder() {}" 1)%string] ++ setters
                          ++ [""; buildFn className checks fs])%list;
             blockImplements := [] |}) 1
    /\ buildFn className checks fs =
         indentMultiline (lines [
           "public " ++ className ++ " build() {";
           join nl checks;
           "  return new " ++ className ++ "(" ++ join ", " (map name fs) ++ ");";
           "}" ]) 1
    /\ checks = map (fun f => "  Utils.checkNotNull(" ++ name f ++ ", " ++ dq ++ name f
                                ++ " == null" ++ dq ++ ");")
                    (filter (fun f => isNonNullType (type f)) fs)
    /\ forall f, In f fs ->
         (In ("  Utils.checkNotNull(" ++ name f ++ ", " ++ dq ++ name f
                ++ " == null" ++ dq ++ ");") checks
          <-> isNonNullType (type f) = true).
Proof.
  intros Hnames Hrun.
  unfold Visitor.buildBuilderNestedClass in Hrun.
  apply bind_Some in Hrun as (body & s1 & Hbody & Hret).
  injection Hret as <- _.
  unfold builderBody in Hbody.
  apply bind_Some in Hbody as (privateFields & s2 & _ & Hbody).
  apply bind_Some in Hbody as (setters & s3 & _ & Hbody).
  apply bind_Some in Hbody as (checks & s4 & Hchecks & Hret).
  injection Hret as <- _.
  destruct (nonNullFields_checks fs s3) as [s5 Hchecks'].
  rewrite Hchecks' in Hchecks. injection Hchecks as <- _.
  exists privateFields, setters,
    (map checkNotNull (filter (fun f => isNonNullType (type f)) fs)).
  split; [reflexivity |]. split; [reflexivity |]. split; [reflexivity |].
  intros f Hf. split.
  - intros Hin. apply (checkNotNull_In_required fs f Hnames Hf Hin).
  - intros Hrequired. apply (in_map checkNotNull). apply filter_In. auto.
Qed.

End BuilderFacts.

(** ** The running example *)

Module Witness.

Import Demo.


Lemma list_item_object_call_witness :
  isArrayType (type refs) = true
  /\ getType (getBaseTypeNode (type refs))
     = Some {| typeKind := InputObjectType; typeName := "OtherInput" |}
  /\ isName (name refs) = true
  /\ isName "OtherInput" = true
  /\ getFieldWriterCall inherited getType refs true = "writeObject($item.marshaller())".
Proof.
  split; [reflexivity |]. split; [reflexivity |].
  split; [reflexivity |]. split; [reflexivity |].
  exact (proj1 (@list_item_object_call inherited getType scalars package Imports refs
                  {| typeKind := InputObjectType; typeName := "OtherInput" |}
                  eq_refl eq_refl eq_refl eq_refl eq_refl)).
Defined.

Lemma optional_string_list_witness :
  type tags = ListType (NamedType "String")
  /\ getType (getBaseTypeNode (NamedType "String"))
     = Some {| typeKind := ScalarType; typeName := "String" |}
  /\ (scalars "String" = None -> inherited "String" = None)
  /\ isName (name tags) = true
  /\ noNewline (orElse (scalars "String") "Object") = true
  /\ getFieldWriterCall inherited getType tags true = "writeString($item)".
Proof.
  assert (Hown : scalars "String" = None -> inherited "String" = None)
    by (intros _; reflexivity).
  split; [reflexivity |]. split; [reflexivity |]. split; [exact Hown |].
  split; [reflexivity |]. split; [reflexivity |].
  exact (proj1 (@optional_string_list inherited getType scalars package Imports tags
                  (NamedType "String") eq_refl eq_refl Hown eq_refl eq_refl)).
Defined.

Lemma class_import_once_witness :
  exists text s',
    InputObjectTypeDefinition inherited getType scalars package Imports blockString sample []
      = (Some text, s')
    /\ NoDup (@nil string)
    /\ NoDup (imports s')
    /\ count_occ string_dec (imports s') ("import " ++ (package ++ "." ++ "OtherInput") ++ ";")
       = 1.
Proof.
  destruct (InputObjectTypeDefinition inherited getType scalars package Imports blockString sample [])
    as [[text |] s'] eqn:Hrun.
  - exists text, s'. split; [reflexivity |].
    assert (Hfresh : NoDup (@nil string)) by constructor.
    split; [exact Hfresh |].
    destruct (@class_import_once inherited getType scalars package Imports blockString sample []
                text s' Hfresh Hrun) as [Hdistinct Honce].
    split; [exact Hdistinct |].
    apply (Honce ref {| typeKind := InputObjectType; typeName := "OtherInput" |});
      [simpl; auto | reflexivity | reflexivity].
  - exfalso. vm_compute in Hrun. discriminate.
Defined.



Lemma build_checks_required_witness :
  exists text s',
    buildBuilderNestedClass inherited getType scalars package Imports blockString
      "Sample" (fields sample) [] = (Some text, s')
    /\ NoDup (map name (fields sample))
    /\ exists checks,
         checks = [ "  Utils.checkNotNull(id, " ++ dq ++ "id == null" ++ dq ++ ");";
                    "  Utils.checkNotNull(parent, " ++ dq ++ "parent == null" ++ dq ++ ");" ]
         /\ (In ("  Utils.checkNotNull(" ++ name tags ++ ", " ++ dq ++ name tags
                   ++ " == null" ++ dq ++ ");") checks
             <-> isNonNullType (type tags) = true).
Proof.
  destruct (buildBuilderNestedClass inherited getType scalars package Imports blockString
              "Sample" (fields sample) []) as [[text |] s'] eqn:Hrun.
  - exists text, s'. split; [reflexivity |].
    assert (Hnames : NoDup (map name (fields sample))).
    { simpl. repeat constructor; simpl; intuition discriminate. }
    split; [exact Hnames |].
    destruct (@build_checks_required inherited getType scalars package Imports blockString
                "Sample" (fields sample) [] text s' Hnames Hrun)
      as (privateFields & setters & checks & _ & _ & Hchecks & Honly).
    exists checks. split; [exact Hchecks |].
    apply Honly. simpl. auto.
  - exfalso. vm_compute in Hrun. discriminate.
Defined.

Lemma generation_deterministic_witness :
  (forall x, In x (@nil string) <-> In x (@nil string))
  /\ fst (InputObjectTypeDefinition inherited getType scalars package Imports blockString sample [])
     = fst (InputObjectTypeDefinition inherited getType scalars package Imports blockString sample []).
Proof.
  assert (Hsame : forall x, In x (@nil string) <-> In x (@nil string))
    by (intros x; reflexivity).
  split; [exact Hsame |].
  exact (proj1 (proj2 (proj2 (proj2
    (@generation_deterministic inherited getType scalars package Imports blockString sample)))
      [] [] Hsame)).
Defined.

Lemma input_import_unconditional_witness :
  fields one <> []
  /\ In ("import " ++ Imports_Input Imports ++ ";")
        (imports (snd (InputObjectTypeDefinition inherited getType scalars package Imports
                         blockString one []))).
Proof.
  assert (Hfields : fields one <> []) by discriminate.
  split; [exact Hfields |].
  exact (proj2 (@input_import_unconditional inherited getType scalars package Imports blockString
                  one Hfields) []).
Defined.

(** The class generated for [one] never mentions the [Input] box, and the
    box is imported all the same. *)
Lemma required_only_class_imports_Input :
  exists text s',
    generate one = (Some text, s')
    /\ includes "Input<" text = false
    /\ includes "Input." text = false
    /\ In "import com.apollographql.apollo.api.Input;" (imports s').
Proof.
  eexists. eexists. split; [vm_compute; reflexivity |].
  split; [vm_compute; reflexivity |]. split; [vm_compute; reflexivity |].
  vm_compute. auto 10.
Qed.

(** The statement emitted for [tags: [String]] has no named [writeString]
    call in it. *)
Lemma tags_statement_has_no_named_call :
  exists text s',
    buildFieldsMarshaller inherited getType scalars package Imports tags [] = (Some text, s')
    /\ includes "listItemWriter.writeString($item);" text = true
    /\ includes ("writeString(" ++ dq) text = false.
Proof. eexists. eexists. repeat split; vm_compute; reflexivity. Qed.

End Witness.

(** ** More about sequencing *)

(** A throw is not caught by what follows. *)
Lemma bind_throws {A B} (m : M A) (f : A -> M B) s :
  fst (m s) = None -> fst (bind m f s) = None.
Proof. unfold bind. destruct (m s) as [[a |] s1]; simpl; [discriminate | reflexivity]. Qed.

(** [array.map] throws as soon as the callback throws for one element. *)
Lemma mapM_throws {A B} (f : A -> M B) (l : list A) (x : A) :
  In x l -> (forall s, fst (f x s) = None) -> forall s, fst (mapM f l s) = None.
Proof.
  intros Hx Hf. induction l as [| a l IH]; intros s; [destruct Hx |].
  simpl. unfold bind at 1.
  destruct (f a s) as [[y |] s1] eqn:Ha; [| reflexivity].
  destruct Hx as [-> | Hx].
  - specialize (Hf s). rewrite Ha in Hf. discriminate.
  - apply bind_throws, IH, Hx.
Qed.

(** The results of a successful [array.map] line up with the elements, and
    each is what the callback returns for its element from any import set. *)
Lemma mapM_Forall2 {A B} (f : A -> M B) :
  (forall x, WriteOnly (f x)) ->
  forall l s ys s', mapM f l s = (Some ys, s') ->
  Forall2 (fun x y => forall s0, fst (f x s0) = Some y) l ys.
Proof.
  intros Hw. induction l as [| a l IH]; intros s ys s' Hrun; simpl in Hrun.
  - injection Hrun as <- _. constructor.
  - apply bind_Some in Hrun as (y & s1 & Hy & Hrun).
    apply bind_Some in Hrun as (zs & s2 & Hzs & Hrun).
    injection Hrun as <- _. constructor; [| eapply IH; eassumption].
    intros s0. rewrite (WriteOnly_value (Hw a) s0 s), Hy. reflexivity.
Qed.

(** Adding what is already there changes nothing. *)
Lemma setAdd_present (x : string) (s : ImportSet) : In x s -> setAdd x s = s.
Proof. intros H. unfold setAdd. destruct (in_dec string_dec x s); [reflexivity | contradiction]. Qed.

Lemma addAll_present (added : list string) (s : ImportSet) :
  (forall x, In x added -> In x s) -> addAll added s = s.
Proof.
  induction added as [| a added IH]; intros H; [reflexivity |].
  unfold addAll in *. simpl. rewrite setAdd_present by (apply H; left; reflexivity).
  apply IH. intros x Hx. apply H. right. exact Hx.
Qed.

Lemma addAll_twice (added : list string) (s : ImportSet) :
  addAll added (addAll added s) = addAll added s.
Proof. apply addAll_present. intros x Hx. apply addAll_In. left. exact Hx. Qed.

Section GenerationFacts.

Variable inherited : string -> option string.
Variable getType : string -> option GraphQLNamedType.
Variable scalars : string -> option string.
Variable package : string.
Variable Imports : ImportsTable.
Variable blockString : JavaDeclarationBlock -> string.

#[local] Abbreviation getFieldWithTypePrefix :=
  (getFieldWithTypePrefix inherited getType scalars package Imports).
#[local] Abbreviation buildFieldsMarshaller :=
  (buildFieldsMarshaller inherited getType scalars package Imports).
#[local] Abbreviation InputObjectTypeDefinition :=
  (InputObjectTypeDefinition inherited getType scalars package Imports blockString).

(** A throw in what follows is a throw of the whole. *)
Lemma bind_throws_after {A B} (m : M A) (f : A -> M B) s :
  (forall a s1, fst (f a s1) = None) -> fst (bind m f s) = None.
Proof.
  intros Hf. unfold bind. destruct (m s) as [[a |] s1]; [apply Hf | reflexivity].
Qed.

(** What keeps the type of a field from resolving. *)
Lemma resolvable_false_inv t :
  resolvable inherited getType scalars t = false ->
  getType (getBaseTypeNode t) = None
  \/ exists st text,
       getType (getBaseTypeNode t) = Some st
       /\ typeKind st = ScalarType
       /\ scalars (typeName st) = None
       /\ inherited (typeName st) = Some text.
Proof.
  unfold resolvable. intros H.
  destruct (getType (getBaseTypeNode t)) as [st |]; [right | left; reflexivity].
  destruct (typeKind st) eqn:Hk; try discriminate.
  destruct (scalars (typeName st)) eqn:Hown; [discriminate |].
  destruct (inherited (typeName st)) as [text |] eqn:Hinh; [| discriminate].
  exists st, text. auto.
Qed.

(** The marshaller statement of a field whose type does not resolve is
    never produced. *)
Lemma buildFieldsMarshaller_throws field :
  getType (getBaseTypeNode (type field)) = None
  \/ (exists st text,
        getType (getBaseTypeNode (type field)) = Some st
        /\ typeKind st = ScalarType
        /\ scalars (typeName st) = None
        /\ inherited (typeName st) = Some text) ->
  forall s, fst (buildFieldsMarshaller field s) = None.
Proof.
  intros Hbad s. unfold Visitor.buildFieldsMarshaller. apply bind_throws.
  destruct Hbad as [Hunknown | (st & text & Hst & Hk & Hown & Hinh)].
  - rewrite (getActualType_unknown inherited getType scalars package Imports
               (type field) false s Hunknown).
    reflexivity.
  - apply (getActualType_inherited inherited getType scalars package Imports
             (type field) s Hst Hk Hown Hinh).
Qed.

(** Generation of a class throws exactly when the type of one of its fields
    does not resolve: its base type is missing from the schema, or is a
    scalar without a mapping of its own whose name is the name of a member
    objects inherit; nothing else makes it fail. *)
Theorem generation_throws_iff_unknown_type node s :
  fst (InputObjectTypeDefinition node s) = None
  <-> exists field,
        In field (fields node)
        /\ (getType (getBaseTypeNode (type field)) = None
            \/ exists st text,
                 getType (getBaseTypeNode (type field)) = Some st
                 /\ typeKind st = ScalarType
                 /\ scalars (typeName st) = None
                 /\ inherited (typeName st) = Some text).
Proof.
  split.
  - intros Hfail.
    destruct (Exists_dec
                (fun f => resolvable inherited getType scalars (type f) = false)
                (fields node)) as [Hex | Hall].
    + intros f. apply bool_dec.
    + apply Exists_exists in Hex as (field & Hin & Hbad).
      exists field. split; [exact Hin | apply resolvable_false_inv, Hbad].
    + exfalso.
      destruct (@InputObjectTypeDefinition_Returns inherited getType scalars package Imports
                  blockString node) with (s := s) as (text & s' & Hrun).
      * intros f Hf.
        destruct (resolvable inherited getType scalars (type f)) eqn:Hres; [reflexivity |].
        exfalso. apply Hall. apply Exists_exists. eauto.
      * rewrite Hrun in Hfail. discriminate.
  - intros (field & Hin & Hbad).
    unfold Visitor.InputObjectTypeDefinition. apply bind_throws.
    unfold classBlock. unfold bind at 1. simpl. unfold bind at 1. simpl.
    apply bind_throws_after. intros privateFields s1.
    apply bind_throws_after. intros ctor s2.
    apply bind_throws_after. intros getters s3.
    apply bind_throws.
    unfold buildMarshallerOverride.
    unfold bind at 1. simpl. unfold bind at 1. simpl.
    unfold bind at 1. simpl. unfold bind at 1. simpl.
    apply bind_throws.
    apply mapM_throws with field; [exact Hin |].
    intros s0. apply bind_throws. apply (buildFieldsMarshaller_throws field Hbad).
Qed.

(** A definition without fields is generated whatever the schema holds, and
    it records the six imports every class needs, in this order, and no
    other: in particular not the optional-box import. *)
Theorem empty_definition_imports className s :
  exists text,
    InputObjectTypeDefinition {| nodeName := className; fields := [] |} s
    = (Some text,
       addAll [ Imports_InputType Imports; Imports_Generated Imports;
                Imports_Override Imports; Imports_IOException Imports;
                Imports_InputFieldWriter Imports; Imports_InputFieldMarshaller Imports ] s).
Proof. eexists. reflexivity. Qed.

(** Generating the same definition again on the same visitor adds no
    import and yields the same text. *)
Theorem regeneration_adds_nothing node s :
  snd (InputObjectTypeDefinition node (snd (InputObjectTypeDefinition node s)))
  = snd (InputObjectTypeDefinition node s)
  /\ fst (InputObjectTypeDefinition node (snd (InputObjectTypeDefinition node s)))
     = fst (InputObjectTypeDefinition node s).
Proof.
  destruct (InputObjectTypeDefinition_WriteOnly inherited getType scalars package Imports
              blockString node) as [v [added H]].
  rewrite !H. simpl. split; [apply addAll_twice | reflexivity].
Qed.

(** When one visitor generates two definitions, each text is the one a
    fresh visitor would produce, and the imports gathered are the same set
    whichever definition is generated first. *)
Theorem generation_order_irrelevant node1 node2 s :
  fst (InputObjectTypeDefinition node2 (snd (InputObjectTypeDefinition node1 s)))
  = fst (InputObjectTypeDefinition node2 [])
  /\ forall x,
       In x (snd (InputObjectTypeDefinition node2 (snd (InputObjectTypeDefinition node1 s))))
       <-> In x (snd (InputObjectTypeDefinition node1 (snd (InputObjectTypeDefinition node2 s)))).
Proof.
  destruct (InputObjectTypeDefinition_WriteOnly inherited getType scalars package Imports
              blockString node1) as [v1 [added1 H1]].
  destruct (InputObjectTypeDefinition_WriteOnly inherited getType scalars package Imports
              blockString node2) as [v2 [added2 H2]].
  repeat progress (rewrite ?H1, ?H2; simpl).
  split; [reflexivity |]. intros x. rewrite !addAll_In. tauto.
Qed.

End GenerationFacts.

(** ** Which imports a class records *)

Lemma prefix_includes (p s : string) : prefix p s = true -> includes p s = true.
Proof. intros H. destruct s; simpl in *; rewrite H; reflexivity. Qed.

Section RecordedImports.

Variable inherited : string -> option string.
Variable getType : string -> option GraphQLNamedType.
Variable scalars : string -> option string.
Variable package : string.
Variable Imports : ImportsTable.
Variable blockString : JavaDeclarationBlock -> string.

#[local] Abbreviation getActualType := (getActualType inherited getType scalars package Imports).
#[local] Abbreviation getFieldWithTypePrefix :=
  (getFieldWithTypePrefix inherited getType scalars package Imports).
#[local] Abbreviation buildInputPrivateFields :=
  (buildInputPrivateFields inherited getType scalars package Imports).
#[local] Abbreviation buildInputCtor := (buildInputCtor inherited getType scalars package Imports).
#[local] Abbreviation buildInputGetters :=
  (buildInputGetters inherited getType scalars package Imports).
#[local] Abbreviation buildMarshallerOverride :=
  (buildMarshallerOverride inherited getType scalars package Imports).
#[local] Abbreviation buildBuilderNestedClass :=
  (buildBuilderNestedClass inherited getType scalars package Imports blockString).
#[local] Abbreviation classBlock := (classBlock inherited getType scalars package Imports blockString).
#[local] Abbreviation InputObjectTypeDefinition :=
  (InputObjectTypeDefinition inherited getType scalars package Imports blockString).

(** The steps of a successful generation, in the order they run. *)
Lemma InputObjectTypeDefinition_steps node s text s' :
  InputObjectTypeDefinition node s = (Some text, s') ->
  exists privateFields ctor getters marshallerOverride builderClass s1 s2 s3 s4,
    buildInputPrivateFields (fields node)
      (setAdd (Imports_Generated Imports) (setAdd (Imports_InputType Imports) s))
      = (Some privateFields, s1)
    /\ buildInputCtor (nodeName node) (fields node) s1 = (Some ctor, s2)
    /\ buildInputGetters (fields node) s2 = (Some getters, s3)
    /\ buildMarshallerOverride (fields node) s3 = (Some marshallerOverride, s4)
    /\ buildBuilderNestedClass (nodeName node) (fields node) s4 = (Some builderClass, s')
    /\ text = blockString {|
         blockAnnotations := ["Generated(" ++ dq ++ "Apollo GraphQL" ++ dq ++ ")"];
         blockAccess := "public";
         blockFinal := true;
         blockStatic := false;
         blockKind := "class";
         blockName := nodeName node;
         blockBody :=
           join nl (privateFields ++ [""; ctor; ""] ++ getters
                      ++ [""; indent "public static Builder builder() { return new Builder(); }" 1;
                          ""; marshallerOverride; ""; builderClass])%list;
         blockImplements := ["InputType"] |}.
Proof.
  intros Hrun. unfold Visitor.InputObjectTypeDefinition in Hrun.
  apply bind_Some in Hrun as (block & s0 & Hblock & Hret).
  injection Hret as <- <-.
  unfold Visitor.classBlock in Hblock.
  apply bind_Some in Hblock as ([] & sa & Ha & Hblock). injection Ha as <-.
  apply bind_Some in Hblock as ([] & sb & Hb & Hblock). injection Hb as <-.
  apply bind_Some in Hblock as (privateFields & s1 & Hpriv & Hblock).
  apply bind_Some in Hblock as (ctor & s2 & Hctor & Hblock).
  apply bind_Some in Hblock as (getters & s3 & Hget & Hblock).
  apply bind_Some in Hblock as (marshallerOverride & s4 & Hmar & Hblock).
  apply bind_Some in Hblock as (builderClass & s5 & Hbuilder & Hret).
  injection Hret as <- <-.
  exists privateFields, ctor, getters, marshallerOverride, builderClass, s1, s2, s3, s4.
  repeat split; assumption.
Qed.

(** What describing one field records, once it has returned. *)
Lemma getFieldWithTypePrefix_records field w s decl s' :
  getFieldWithTypePrefix field w s = (Some decl, s') ->
  In (Imports_Input Imports) s'
  /\ (isNonNullType (type field) = true -> In (Imports_NonNull Imports) s')
  /\ (isArrayType (type field) = true -> In (Imports_List Imports) s')
  /\ (forall st imp,
        getType (getBaseTypeNode (type field)) = Some st ->
        typeKind st = ScalarType ->
        (scalars (typeName st) = None -> inherited (typeName st) = None) ->
        truthy (Imports_lookup Imports (orElse (scalars (typeName st)) "Object")) = Some imp ->
        In imp s').
Proof.
  intros Hrun.
  assert (Hinput : In (Imports_Input Imports) s').
  { pose proof (getFieldWithTypePrefix_records_Input inherited getType scalars package Imports field w s)
      as H. rewrite Hrun in H. exact H. }
  split; [exact Hinput |].
  unfold Visitor.getFieldWithTypePrefix in Hrun.
  apply bind_Some in Hrun as ([] & s1 & _ & Hrun).
  apply bind_Some in Hrun as (typeToUse & s2 & Hty & Hrun).
  apply bind_Some in Hrun as ([] & s3 & Hnn & Hret).
  assert (Hs3 : s' = s3) by (destruct (isNonNullType (type field)), w; injection Hret; auto).
  subst s3.
  assert (Hincl : incl s2 s').
  { refine (run_incl _ Hnn). write_only. }
  split; [| split].
  - intros Hrequired. rewrite Hrequired in Hnn. simpl in Hnn. injection Hnn as <-.
    apply setAdd_In. auto.
  - intros Harray. apply Hincl.
    unfold Visitor.getActualType in Hty.
    destruct (getType (getBaseTypeNode (type field))) as [st |]; [| discriminate].
    apply bind_Some in Hty as (base & s4 & _ & Hty).
    assert (Hlist : exists inner,
              wrapTypeWithModifiers base (type field) "List" = JSString ("List<" ++ inner)).
    { destruct (type field) as [n | inner | [n | inner | inner]]; try discriminate;
        eexists; reflexivity. }
    destruct Hlist as [inner Hlist]. rewrite Hlist in Hty.
    assert (Hincludes : includes "List<" ("List<" ++ inner) = true).
    { apply prefix_includes. simpl. destruct inner; reflexivity. }
    rewrite Hincludes in Hty. simpl when in Hty. unfold bind, addImport, ret in Hty.
    injection Hty as _ <-. apply setAdd_In. auto.
  - intros st imp Hst Hk Hown Himp. apply Hincl.
    unfold Visitor.getActualType in Hty. rewrite Hst in Hty.
    destruct st as [k n]. simpl in Hk. subst k. simpl in Hown, Hty, Himp.
    rewrite (orDefault_lookup inherited scalars n "Object" Hown) in Hty.
    simpl toText in Hty. rewrite Himp in Hty.
    apply bind_Some in Hty as (base & s4 & Hbase & Hty).
    apply bind_Some in Hbase as ([] & s5 & Hadd & Hret').
    injection Hadd as <-. injection Hret' as _ <-.
    refine (run_incl _ Hty _ _); [write_only | apply setAdd_In; auto].
Qed.

(** A marshaller is only produced when the type of every field resolves. *)
Lemma buildMarshallerOverride_resolvable fs s text s' field :
  buildMarshallerOverride fs s = (Some text, s') ->
  In field fs ->
  resolvable inherited getType scalars (type field) = true.
Proof.
  intros Hrun Hin.
  destruct (resolvable inherited getType scalars (type field)) eqn:Hres; [reflexivity |].
  exfalso.
  assert (Hfail : fst (buildMarshallerOverride fs s) = None).
  { unfold Visitor.buildMarshallerOverride.
    unfold bind at 1. simpl. unfold bind at 1. simpl.
    unfold bind at 1. simpl. unfold bind at 1. simpl.
    apply bind_throws. apply mapM_throws with field; [exact Hin |].
    intros s0. apply bind_throws.
    apply (buildFieldsMarshaller_throws inherited getType scalars package Imports field).
    apply resolvable_false_inv, Hres. }
  rewrite Hrun in Hfail. discriminate.
Qed.

(** A required field makes [build()] record the null-check helper. *)
Lemma nonNullFields_records_Utils fs field s :
  In field fs -> isNonNullType (type field) = true ->
  In (Imports_Utils Imports) (snd (nonNullFields Imports fs s)).
Proof.
  intros Hin Hrequired. unfold nonNullFields.
  assert (Hf : In field (filter (fun f => isNonNullType (type f)) fs))
    by (apply filter_In; auto).
  destruct (filter (fun f => isNonNullType (type f)) fs) as [| f rest]; [destruct Hf |].
  simpl. apply bind_keeps; [| intros; write_only].
  intros s0. simpl. apply setAdd_In. auto.
Qed.

(** After a class has been generated the import set holds: the six imports
    every class needs; for every field the optional-box import; for a
    required field the non-null annotation and the null-check helper; for an
    optional field the nullable annotation; for a list field the list type;
    and for a scalar field the import its Java type calls for. *)
Theorem recorded_imports node s text s' :
  InputObjectTypeDefinition node s = (Some text, s') ->
  (forall x, In x [ Imports_InputType Imports; Imports_Generated Imports;
                    Imports_Override Imports; Imports_IOException Imports;
                    Imports_InputFieldWriter Imports; Imports_InputFieldMarshaller Imports ]
             -> In x s')
  /\ forall field, In field (fields node) ->
       In (Imports_Input Imports) s'
       /\ (isNonNullType (type field) = true ->
           In (Imports_NonNull Imports) s' /\ In (Imports_Utils Imports) s')
       /\ (isNonNullType (type field) = false -> In (Imports_Nullable Imports) s')
       /\ (isArrayType (type field) = true -> In (Imports_List Imports) s')
       /\ (forall st imp,
             getType (getBaseTypeNode (type field)) = Some st ->
             typeKind st = ScalarType ->
             truthy (Imports_lookup Imports (orElse (scalars (typeName st)) "Object"))
               = Some imp ->
             In imp s').
Proof.
  intros Hrun.
  apply InputObjectTypeDefinition_steps in Hrun
    as (privateFields & ctor & getters & marshallerOverride & builderClass
        & s1 & s2 & s3 & s4 & Hpriv & Hctor & Hget & Hmar & Hbuilder & _).
  assert (H01 : incl (setAdd (Imports_Generated Imports)
                        (setAdd (Imports_InputType Imports) s)) s1)
    by (refine (run_incl _ Hpriv); apply buildInputPrivateFields_WriteOnly).
  assert (H12 : incl s1 s2) by (refine (run_incl _ Hctor); apply buildInputCtor_WriteOnly).
  assert (H23 : incl s2 s3) by (refine (run_incl _ Hget); apply buildInputGetters_WriteOnly).
  assert (H34 : incl s3 s4)
    by (refine (run_incl _ Hmar); apply buildMarshallerOverride_WriteOnly).
  assert (H45 : incl s4 s')
    by (refine (run_incl _ Hbuilder); apply buildBuilderNestedClass_WriteOnly).
  assert (H15 : incl s1 s') by (intros x Hx; auto).
  split.
  - intros x Hx. simpl in Hx.
    destruct Hx as [<- | [<- | Hx]].
    + apply H15, H01. rewrite !setAdd_In. auto.
    + apply H15, H01. rewrite !setAdd_In. auto.
    + apply H45. unfold Visitor.buildMarshallerOverride in Hmar.
      apply bind_Some in Hmar as ([] & sa & Ha & Hmar). injection Ha as <-.
      apply bind_Some in Hmar as ([] & sb & Hb & Hmar). injection Hb as <-.
      apply bind_Some in Hmar as ([] & sc & Hc & Hmar). injection Hc as <-.
      apply bind_Some in Hmar as ([] & sd & Hd & Hmar). injection Hd as <-.
      match type of Hmar with
      | ?m ?s0 = _ =>
          assert (Hw : WriteOnly m)
            by (pose proof (buildFieldsMarshaller_WriteOnly inherited getType scalars package Imports);
                write_only);
          apply (run_incl Hw Hmar)
      end.
      rewrite !setAdd_In. intuition auto.
  - intros field Hin.
    assert (Hdescribed :
              In (Imports_Input Imports) s1
              /\ (isNonNullType (type field) = true -> In (Imports_NonNull Imports) s1)
              /\ (isArrayType (type field) = true -> In (Imports_List Imports) s1)
              /\ (forall st imp,
                    getType (getBaseTypeNode (type field)) = Some st ->
                    typeKind st = ScalarType ->
                    (scalars (typeName st) = None -> inherited (typeName st) = None) ->
                    truthy (Imports_lookup Imports (orElse (scalars (typeName st)) "Object"))
                      = Some imp ->
                    In imp s1)).
    { unfold Visitor.buildInputPrivateFields in Hpriv.
      apply bind_Some in Hpriv as (decls & s5 & Hdecls & Hret).
      injection Hret as _ <-.
      refine (mapM_visited _
                (fun f s0 =>
                   In (Imports_Input Imports) s0
                   /\ (isNonNullType (type f) = true -> In (Imports_NonNull Imports) s0)
                   /\ (isArrayType (type f) = true -> In (Imports_List Imports) s0)
                   /\ (forall st imp,
                         getType (getBaseTypeNode (type f)) = Some st ->
                         typeKind st = ScalarType ->
                         (scalars (typeName st) = None -> inherited (typeName st) = None) ->
                         truthy (Imports_lookup Imports
                                   (orElse (scalars (typeName st)) "Object")) = Some imp ->
                         In imp s0))
                _ _ _ _ _ Hdecls field Hin).
      - intros x.
        pose proof (getFieldWithTypePrefix_WriteOnly inherited getType scalars package Imports).
        write_only.
      - intros x s0 y s0' Hx.
        apply bind_Some in Hx as (fieldType & s6 & Hx & Hret).
        injection Hret as _ <-.
        eapply getFieldWithTypePrefix_records; eassumption.
      - intros x s0 s0' (Ha & Hb & Hc & Hd) Hincl.
        repeat split; intros; apply Hincl; eauto. }
    destruct Hdescribed as (Hinput & Hnonnull & Hlist & Hscalar).
    split; [apply H15, Hinput |]. split; [| split; [| split]].
    + intros Hrequired. split; [apply H15, Hnonnull, Hrequired |].
      unfold Visitor.buildBuilderNestedClass in Hbuilder.
      apply bind_Some in Hbuilder as (body & s5 & Hbody & Hret).
      injection Hret as _ <-.
      unfold builderBody in Hbody.
      apply bind_Some in Hbody as (slots & s6 & _ & Hbody).
      apply bind_Some in Hbody as (setters & s7 & _ & Hbody).
      apply bind_Some in Hbody as (checks & s8 & Hchecks & Hret).
      injection Hret as _ <-.
      pose proof (nonNullFields_records_Utils (fields node) field s7 Hin Hrequired) as H.
      rewrite Hchecks in H. exact H.
    + intros Hoptional. apply H45, H34.
      unfold Visitor.buildInputGetters in Hget.
      apply bind_Some in Hget as (decls & s5 & Hdecls & Hret).
      injection Hret as _ <-.
      refine (mapM_visited _
                (fun f s0 => isNonNullType (type f) = false ->
                             In (Imports_Nullable Imports) s0)
                _ _ _ _ _ Hdecls field Hin Hoptional).
      * intros x.
        pose proof (getFieldWithTypePrefix_WriteOnly inherited getType scalars package Imports).
        write_only.
      * intros x s0 y s0' Hx Hopt.
        apply bind_Some in Hx as (fieldType & s6 & _ & Hx).
        rewrite Hopt in Hx. simpl in Hx.
        apply bind_Some in Hx as ([] & s7 & Hadd & Hret).
        injection Hadd as <-. injection Hret as _ <-. apply setAdd_In. auto.
      * intros x s0 s0' HP Hincl Hopt. apply Hincl, HP, Hopt.
    + intros Harray. apply H15, Hlist, Harray.
    + intros st imp Hst Hk Himp. apply H15.
      destruct (resolvable_inv inherited getType scalars (type field)
                  (buildMarshallerOverride_resolvable (fields node) s3 field Hmar Hin))
        as (st' & Hst' & Hown).
      rewrite Hst in Hst'. injection Hst' as <-.
      apply (Hscalar st imp Hst Hk (Hown Hk) Himp).
Qed.

End RecordedImports.

(** ** Writer calls by kind of type *)

Section WriterCallFacts.

Variable inherited : string -> option string.
Variable getType : string -> option GraphQLNamedType.
Variable scalars : string -> option string.
Variable package : string.
Variable Imports : ImportsTable.

#[local] Abbreviation getFieldWriterCall := (getFieldWriterCall inherited getType).
#[local] Abbreviation buildFieldsMarshaller :=
  (buildFieldsMarshaller inherited getType scalars package Imports).

(** The per-item writer call of a list depends on the base type alone: two
    fields of the same base type get the same call, whatever their names,
    their nullability or the nesting of their lists. *)
Theorem item_call_by_base_type field1 field2 :
  getBaseTypeNode (type field1) = getBaseTypeNode (type field2) ->
  getFieldWriterCall field1 true = getFieldWriterCall field2 true.
Proof.
  intros Hbase. unfold Visitor.getFieldWriterCall. rewrite Hbase.
  destruct (getType (getBaseTypeNode (type field2))) as [[[] n] |]; reflexivity.
Qed.

(** An enum field is written as a string: by name with the raw value when
    required and the boxed value's payload when optional, and item by item
    in a list. *)
Theorem enum_written_as_string field st :
  getType (getBaseTypeNode (type field)) = Some st ->
  typeKind st = EnumType ->
  getFieldWriterCall field false =
    "writeString(" ++ dq ++ name field ++ dq ++ ", " ++ name field
      ++ (if isNonNullType (type field) then "" else ".value") ++ ")"
  /\ getFieldWriterCall field true = "writeString($item)".
Proof.
  intros Hst Hk. unfold Visitor.getFieldWriterCall. rewrite Hst.
  destruct st as [k n]. simpl in Hk. subst k. split; reflexivity.
Qed.

(** A field whose base type is an object, interface or union type has no
    writer method: generation does not fail, and the statement emitted calls
    a method named [null]. *)
Theorem output_type_has_no_writer field st :
  getType (getBaseTypeNode (type field)) = Some st ->
  typeKind st = ObjectType \/ typeKind st = InterfaceType \/ typeKind st = UnionType ->
  getFieldWriterCall field true = "null($item)"
  /\ getFieldWriterCall field false =
       "null(" ++ dq ++ name field ++ dq ++ ", " ++ name field
         ++ (if isNonNullType (type field) then "" else ".value") ++ ")"
  /\ Returns (buildFieldsMarshaller field).
Proof.
  intros Hst Hk.
  assert (Hreturns : Returns (buildFieldsMarshaller field)).
  { apply buildFieldsMarshaller_Returns. unfold resolvable. rewrite Hst.
    destruct Hk as [-> | [-> | ->]]; reflexivity. }
  unfold Visitor.getFieldWriterCall. rewrite Hst.
  destruct st as [k n]. simpl in Hk.
  destruct Hk as [-> | [-> | ->]]; repeat split; try reflexivity; exact Hreturns.
Qed.

(** The writer methods of the table are single words. *)
Lemma writer_method_single_line (n : string) :
  noNewline (orElse (SCALAR_TO_WRITER_METHOD n) "writeCustom") = true.
Proof.
  unfold SCALAR_TO_WRITER_METHOD.
  repeat match goal with
         | |- context [if String.eqb n ?k then _ else _] => destruct (String.eqb n k)
         end; reflexivity.
Qed.

(** For a scalar or enum field that is not a list, whose name is a GraphQL
    name and whose scalar is not named like an inherited member, the
    statement is the single line [writer.<method>("f", f);] when the field
    is required, and when it is optional the presence guard around the line
    [writer.<method>("f", f.value);]: three lines, spelled out. *)
Theorem plain_field_statement field st :
  getType (getBaseTypeNode (type field)) = Some st ->
  typeKind st = ScalarType \/ typeKind st = EnumType ->
  isArrayType (type field) = false ->
  isName (name field) = true ->
  (typeKind st = ScalarType -> inherited (typeName st) = None) ->
  let writerMethod :=
    match typeKind st with
    | ScalarType => orElse (SCALAR_TO_WRITER_METHOD (typeName st)) "writeCustom"
    | _ => "writeString"
    end in
  forall s,
    fst (buildFieldsMarshaller field s) =
      Some (if isNonNullType (type field)
            then "  writer." ++ writerMethod ++ "(" ++ dq ++ name field ++ dq ++ ", "
                   ++ name field ++ ");"
            else join nl
                   [ "  if(" ++ name field ++ ".defined) {";
                     "      writer." ++ writerMethod ++ "(" ++ dq ++ name field ++ dq ++ ", "
                       ++ name field ++ ".value);";
                     "  }" ]).
Proof.
  intros Hst Hk Hplain Hname Hinh writerMethod s.
  destruct (buildFieldsMarshaller_resolves inherited getType scalars package Imports
              field s Hst) as [s' Hrun]; [intros Hscalar _; exact (Hinh Hscalar) |].
  rewrite Hrun. cbn [fst]. cbv zeta. rewrite Hplain.
  assert (Hmethod : noNewline writerMethod = true).
  { unfold writerMethod. destruct (typeKind st);
      try reflexivity; apply writer_method_single_line. }
  assert (Hcall : getFieldWriterCall field false =
                  writerMethod ++ "(" ++ dq ++ name field ++ dq ++ ", " ++ name field
                    ++ (if isNonNullType (type field) then "" else ".value") ++ ")").
  { unfold writerMethod. destruct Hk as [Hk | Hk].
    - rewrite (getFieldWriterCall_scalar inherited getType field false Hst Hk), Hk.
      cbv zeta.
      rewrite (orDefault_lookup inherited SCALAR_TO_WRITER_METHOD (typeName st)
                 "writeCustom" (fun _ => Hinh Hk)).
      reflexivity.
    - unfold Visitor.getFieldWriterCall. rewrite Hst.
      destruct st as [k n]. simpl in Hk. subst k. reflexivity. }
  clearbody writerMethod. rewrite Hcall.
  pose proof (isName_noNewline (name field) Hname) as Hn.
  destruct (isNonNullType (type field)).
  - unfold indent. f_equal.
    repeat progress (rewrite ?append_assoc; simpl). reflexivity.
  - f_equal.
    match goal with
    | |- context [presenceGuard ?n (indent ?x 1)] =>
        change (indent x 1) with (join nl [("  " ++ x)%string])
    end.
    rewrite presenceGuard_lines; [| exact Hn | discriminate |].
    + simpl map. simpl List.app. f_equal. f_equal.
      repeat progress (rewrite ?append_assoc; simpl). reflexivity.
    + constructor; [| constructor].
      rewrite !noNewline_app, Hmethod, Hn. reflexivity.
Qed.

End WriterCallFacts.

(** ** One declaration per field, in declaration order *)

Lemma Forall2_map_right {A B C} (R : A -> B -> Prop) (g : B -> C) l ys :
  Forall2 R l ys ->
  Forall2 (fun x z => exists y, R x y /\ z = g y) l (map g ys).
Proof. induction 1; simpl; constructor; eauto. Qed.

Lemma Forall2_weaken {A B} (R R' : A -> B -> Prop) l ys :
  (forall x y, R x y -> R' x y) -> Forall2 R l ys -> Forall2 R' l ys.
Proof. intros H. induction 1; constructor; auto. Qed.

Arguments Forall2_weaken {A B R R' l ys} _ _.

(** The value of a method followed by a pure step. *)
Lemma bind_value {A B} (m : M A) (f : A -> M B) s b :
  fst (bind m f s) = Some b ->
  exists a s1, m s = (Some a, s1) /\ fst (f a s1) = Some b.
Proof.
  unfold bind. destruct (m s) as [[a |] s1]; simpl; [eauto | discriminate].
Qed.

Section DeclarationFacts.

Variable inherited : string -> option string.
Variable getType : string -> option GraphQLNamedType.
Variable scalars : string -> option string.
Variable package : string.
Variable Imports : ImportsTable.
Variable blockString : JavaDeclarationBlock -> string.

#[local] Abbreviation getFieldWithTypePrefix :=
  (getFieldWithTypePrefix inherited getType scalars package Imports).
#[local] Abbreviation buildFieldsMarshaller :=
  (buildFieldsMarshaller inherited getType scalars package Imports).
#[local] Abbreviation buildInputPrivateFields :=
  (buildInputPrivateFields inherited getType scalars package Imports).
#[local] Abbreviation buildInputCtor := (buildInputCtor inherited getType scalars package Imports).
#[local] Abbreviation buildInputGetters :=
  (buildInputGetters inherited getType scalars package Imports).
#[local] Abbreviation buildMarshallerOverride :=
  (buildMarshallerOverride inherited getType scalars package Imports).
#[local] Abbreviation builderBody := (builderBody inherited getType scalars package Imports).
#[local] Abbreviation InputObjectTypeDefinition :=
  (InputObjectTypeDefinition inherited getType scalars package Imports blockString).

(** What describing a field returns does not depend on the import set. *)
Lemma getFieldWithTypePrefix_value field w s decl s' :
  getFieldWithTypePrefix field w s = (Some decl, s') ->
  forall s0, fst (getFieldWithTypePrefix field w s0) = Some decl.
Proof.
  intros Hrun s0.
  rewrite (WriteOnly_value
             (getFieldWithTypePrefix_WriteOnly inherited getType scalars package Imports field w) s0 s),
    Hrun.
  reflexivity.
Qed.

(** The declaration of a field whose type resolves: a required field is
    annotated and never boxed, with or without the wrapper flag; an optional
    field is boxed in [Input] when the wrapper is asked for and bare
    otherwise; the Java type is the mapped scalar ([Object] when unmapped)
    or the type's own name, inside one [List] per list level; the
    declaration ends with the field's name. *)
Theorem field_declaration field st s :
  getType (getBaseTypeNode (type field)) = Some st ->
  (typeKind st = ScalarType -> scalars (typeName st) = None ->
   inherited (typeName st) = None) ->
  let javaType :=
    toText
      (wrapTypeWithModifiers
         (JSString (match typeKind st with
                    | ScalarType => orElse (scalars (typeName st)) "Object"
                    | _ => typeName st
                    end)) (type field) "List") in
  fst (getFieldWithTypePrefix field true s) =
    Some (if isNonNullType (type field)
          then "@Nonnull " ++ javaType ++ " " ++ name field
          else "Input<" ++ javaType ++ "> " ++ name field)
  /\ fst (getFieldWithTypePrefix field false s) =
       Some (if isNonNullType (type field)
             then "@Nonnull " ++ javaType ++ " " ++ name field
             else javaType ++ " " ++ name field).
Proof.
  intros Hst Hown javaType.
  assert (Hboth : forall w,
            fst (getFieldWithTypePrefix field w s) =
              Some (if isNonNullType (type field)
                    then "@Nonnull " ++ javaType ++ " " ++ name field
                    else if w then "Input<" ++ javaType ++ "> " ++ name field
                         else javaType ++ " " ++ name field)).
  { intros w. unfold Visitor.getFieldWithTypePrefix, bind at 1. simpl.
    unfold bind at 1.
    destruct (getActualType_resolves inherited getType scalars package Imports (type field) true
                (setAdd (Imports_Input Imports) s) Hst Hown) as [s1 ->].
    fold javaType. unfold bind, when, addImport, ret.
    destruct (isNonNullType (type field)), w; reflexivity. }
  split; [apply (Hboth true) | apply (Hboth false)].
Qed.

(** The class has one private final field per input field, in declaration
    order, each declared as the field is described. *)
Theorem private_field_per_field fs s decls s' :
  buildInputPrivateFields fs s = (Some decls, s') ->
  Forall2 (fun field line =>
             exists decl,
               (forall s0, fst (getFieldWithTypePrefix field true s0) = Some decl)
               /\ line = "  private final " ++ decl ++ ";") fs decls.
Proof.
  intros Hrun. unfold Visitor.buildInputPrivateFields in Hrun.
  apply bind_Some in Hrun as (raw & s1 & Hraw & Hret). injection Hret as <- _.
  apply mapM_Forall2 in Hraw.
  - apply (Forall2_map_right (fun line => indent line 1)) in Hraw.
    refine (Forall2_weaken _ Hraw). intros field line (y & Hy & ->).
    destruct (bind_value _ _ _ (Hy [])) as (decl & s2 & Hdecl & Hline).
    injection Hline as <-. exists decl. split; [| reflexivity].
    eapply getFieldWithTypePrefix_value, Hdecl.
  - intros x. pose proof (getFieldWithTypePrefix_WriteOnly inherited getType scalars package Imports).
    write_only.
Qed.

(** The constructor takes one parameter per field, in declaration order,
    each declared as the field is described, and assigns each parameter to
    the field of the same name, in the same order. *)
Theorem constructor_per_field className fs s text s' :
  buildInputCtor className fs s = (Some text, s') ->
  exists params,
    Forall2 (fun field param =>
               forall s0, fst (getFieldWithTypePrefix field true s0) = Some param)
            fs params
    /\ text = indentMultiline (lines [
                className ++ "(" ++ join ", " params ++ ") {";
                join nl (map (fun field =>
                                "  this." ++ name field ++ " = " ++ name field ++ ";") fs);
                "}" ]) 1.
Proof.
  intros Hrun. unfold Visitor.buildInputCtor in Hrun.
  apply bind_Some in Hrun as (params & s1 & Hparams & Hret). injection Hret as <- _.
  exists params. split; [| reflexivity].
  refine (mapM_Forall2 _ _ _ _ Hparams).
  intros x. apply getFieldWithTypePrefix_WriteOnly.
Qed.

(** The class has one getter per field, in declaration order; the getter of
    an optional field, and only that one, is annotated [@Nullable]. *)
Theorem getter_per_field fs s getters s' :
  buildInputGetters fs s = (Some getters, s') ->
  Forall2 (fun field line =>
             exists decl,
               (forall s0, fst (getFieldWithTypePrefix field true s0) = Some decl)
               /\ line = "  public "
                           ++ (if isNonNullType (type field) then "" else "@Nullable ")
                           ++ decl ++ "() { return this." ++ name field ++ "; }")
          fs getters.
Proof.
  intros Hrun. unfold Visitor.buildInputGetters in Hrun.
  apply bind_Some in Hrun as (raw & s1 & Hraw & Hret). injection Hret as <- _.
  apply mapM_Forall2 in Hraw.
  - apply (Forall2_map_right (fun line => indent line 1)) in Hraw.
    refine (Forall2_weaken _ Hraw). intros field line (y & Hy & ->).
    destruct (bind_value _ _ _ (Hy [])) as (decl & s2 & Hdecl & Hline).
    exists decl. split; [eapply getFieldWithTypePrefix_value, Hdecl |].
    destruct (isNonNullType (type field)); simpl in Hline;
      unfold bind, when, addImport, ret in Hline; simpl in Hline;
      injection Hline as <-; reflexivity.
  - intros x. pose proof (getFieldWithTypePrefix_WriteOnly inherited getType scalars package Imports).
    write_only.
Qed.

(** The marshaller writes every field once, in declaration order: its body
    is the statements of the fields, each indented two levels. *)
Theorem marshaller_statement_per_field fs s text s' :
  buildMarshallerOverride fs s = (Some text, s') ->
  exists statements,
    Forall2 (fun field line =>
               exists statement,
                 (forall s0, fst (buildFieldsMarshaller field s0) = Some statement)
                 /\ line = indentMultiline statement 2) fs statements
    /\ text = indentMultiline (lines [
                "@Override";
                "public InputFieldMarshaller marshaller() {";
                "  return new InputFieldMarshaller() {";
                "    @Override";
                "    public void marshal(InputFieldWriter writer) throws IOException {";
                join nl statements;
                "    }";
                "  };";
                "}" ]) 1.
Proof.
  intros Hrun. unfold Visitor.buildMarshallerOverride in Hrun.
  apply bind_Some in Hrun as ([] & sa & _ & Hrun).
  apply bind_Some in Hrun as ([] & sb & _ & Hrun).
  apply bind_Some in Hrun as ([] & sc & _ & Hrun).
  apply bind_Some in Hrun as ([] & sd & _ & Hrun).
  apply bind_Some in Hrun as (statements & s1 & Hstatements & Hret).
  injection Hret as <- _.
  exists statements. split; [| reflexivity].
  apply mapM_Forall2 in Hstatements.
  - refine (Forall2_weaken _ Hstatements). intros field line Hy.
    destruct (bind_value _ _ _ (Hy [])) as (statement & s2 & Hstatement & Hline).
    injection Hline as <-. exists statement. split; [| reflexivity].
    intros s0.
    rewrite (WriteOnly_value
               (buildFieldsMarshaller_WriteOnly inherited getType scalars package Imports field) s0 []),
      Hstatement.
    reflexivity.
  - intros x. pose proof (buildFieldsMarshaller_WriteOnly inherited getType scalars package Imports).
    write_only.
Qed.

(** The builder has one private slot and one fluent setter per field, in
    declaration order.  The slot of an optional field starts as
    [Input.absent()], that of a required field is left unset; the setter of
    an optional field takes the bare nullable type and boxes it with
    [Input.fromNullable], that of a required field stores its argument. *)
Theorem builder_slot_and_setter_per_field className fs s body s' :
  builderBody className fs s = (Some body, s') ->
  exists slots setters checks,
    body = join nl (slots ++ [(nl ++ "  Builder() {}")%string] ++ setters
                      ++ [""; buildFn className checks fs])%list
    /\ Forall2 (fun field line =>
                  exists decl,
                    (forall s0, fst (getFieldWithTypePrefix field true s0) = Some decl)
                    /\ line = "  private " ++ decl
                                ++ (if isNonNullType (type field) then ""
                                    else " = Input.absent()") ++ ";") fs slots
    /\ Forall2 (fun field setter =>
                  exists decl,
                    (forall s0, fst (getFieldWithTypePrefix field false s0) = Some decl)
                    /\ setter = indentMultiline (lines [
                         "";
                         "public Builder " ++ name field ++ "("
                           ++ (if isNonNullType (type field) then "" else "@Nullable ")
                           ++ decl ++ ") {";
                         "  this." ++ name field ++ " = "
                           ++ (if isNonNullType (type field) then name field
                               else "Input.fromNullable(" ++ name field ++ ")") ++ ";";
                         "  return this;";
                         "}" ]) 1) fs setters.
Proof.
  intros Hrun. unfold Visitor.builderBody in Hrun.
  apply bind_Some in Hrun as (slots & s1 & Hslots & Hrun).
  apply bind_Some in Hrun as (setters & s2 & Hsetters & Hrun).
  apply bind_Some in Hrun as (checks & s3 & _ & Hret).
  injection Hret as <- _.
  exists slots, setters, checks. split; [reflexivity |]. split.
  - unfold builderPrivateFields in Hslots.
    apply bind_Some in Hslots as (raw & s4 & Hraw & Hret). injection Hret as <- _.
    apply mapM_Forall2 in Hraw.
    + apply (Forall2_map_right (fun line => indent line 1)) in Hraw.
      refine (Forall2_weaken _ Hraw). intros field line (y & Hy & ->).
      destruct (bind_value _ _ _ (Hy [])) as (decl & s5 & Hdecl & Hline).
      injection Hline as <-. exists decl.
      split; [eapply getFieldWithTypePrefix_value, Hdecl | reflexivity].
    + intros x. pose proof (getFieldWithTypePrefix_WriteOnly inherited getType scalars package Imports).
      write_only.
  - unfold builderSetters in Hsetters.
    apply bind_Some in Hsetters as (raw & s4 & Hraw & Hret). injection Hret as <- _.
    apply mapM_Forall2 in Hraw.
    + apply (Forall2_map_right (fun setter => indentMultiline setter 1)) in Hraw.
      refine (Forall2_weaken _ Hraw). intros field line (y & Hy & ->).
      destruct (bind_value _ _ _ (Hy [])) as (decl & s5 & Hdecl & Hline).
      injection Hline as <-. exists decl.
      split; [eapply getFieldWithTypePrefix_value, Hdecl | reflexivity].
    + intros x. pose proof (getFieldWithTypePrefix_WriteOnly inherited getType scalars package Imports).
      write_only.
Qed.

End DeclarationFacts.

(** ** The layout of the class *)

Lemma mapM_length {A B} (f : A -> M B) l : forall s ys s',
  mapM f l s = (Some ys, s') -> List.length ys = List.length l.
Proof.
  induction l as [| a l IH]; intros s ys s' Hrun; simpl in Hrun.
  - injection Hrun as <- _. reflexivity.
  - apply bind_Some in Hrun as (y & s1 & _ & Hrun).
    apply bind_Some in Hrun as (zs & s2 & Hzs & Hrun).
    injection Hrun as <- _. simpl. f_equal. eapply IH, Hzs.
Qed.

Section LayoutFacts.

Variable inherited : string -> option string.
Variable getType : string -> option GraphQLNamedType.
Variable scalars : string -> option string.
Variable package : string.
Variable Imports : ImportsTable.
Variable blockString : JavaDeclarationBlock -> string.

#[local] Abbreviation buildInputCtor := (buildInputCtor inherited getType scalars package Imports).
#[local] Abbreviation buildMarshallerOverride :=
  (buildMarshallerOverride inherited getType scalars package Imports).
#[local] Abbreviation buildBuilderNestedClass :=
  (buildBuilderNestedClass inherited getType scalars package Imports blockString).
#[local] Abbreviation InputObjectTypeDefinition :=
  (InputObjectTypeDefinition inherited getType scalars package Imports blockString).

(** A generated class is a public final class named after the definition,
    annotated as generated and implementing [InputType]; its body lists, in
    this order and separated by blank lines, as many private fields as the
    definition has fields, the constructor, as many getters, the static
    [builder()] accessor, the marshaller and the builder class; constructor,
    marshaller and builder are the texts a fresh visitor produces for them. *)
Theorem class_layout node s text s' :
  InputObjectTypeDefinition node s = (Some text, s') ->
  exists privateFields ctor getters marshallerOverride builderClass,
    text = blockString {|
      blockAnnotations := ["Generated(" ++ dq ++ "Apollo GraphQL" ++ dq ++ ")"];
      blockAccess := "public";
      blockFinal := true;
      blockStatic := false;
      blockKind := "class";
      blockName := nodeName node;
      blockBody :=
        join nl (privateFields ++ [""; ctor; ""] ++ getters
                   ++ [""; "  public static Builder builder() { return new Builder(); }";
                       ""; marshallerOverride; ""; builderClass])%list;
      blockImplements := ["InputType"] |}
    /\ List.length privateFields = List.length (fields node)
    /\ List.length getters = List.length (fields node)
    /\ fst (buildInputCtor (nodeName node) (fields node) []) = Some ctor
    /\ fst (buildMarshallerOverride (fields node) []) = Some marshallerOverride
    /\ fst (buildBuilderNestedClass (nodeName node) (fields node) []) = Some builderClass.
Proof.
  intros Hrun.
  apply InputObjectTypeDefinition_steps in Hrun
    as (privateFields & ctor & getters & marshallerOverride & builderClass
        & s1 & s2 & s3 & s4 & Hpriv & Hctor & Hget & Hmar & Hbuilder & ->).
  exists privateFields, ctor, getters, marshallerOverride, builderClass.
  split; [reflexivity |].
  split.
  { unfold buildInputPrivateFields in Hpriv.
    apply bind_Some in Hpriv as (raw & s5 & Hraw & Hret). injection Hret as <- _.
    rewrite length_map. eapply mapM_length, Hraw. }
  split.
  { unfold buildInputGetters in Hget.
    apply bind_Some in Hget as (raw & s5 & Hraw & Hret). injection Hret as <- _.
    rewrite length_map. eapply mapM_length, Hraw. }
  split; [| split].
  - rewrite (WriteOnly_value
               (buildInputCtor_WriteOnly inherited getType scalars package Imports
                  (nodeName node) (fields node)) [] s1), Hctor.
    reflexivity.
  - rewrite (WriteOnly_value
               (buildMarshallerOverride_WriteOnly inherited getType scalars package Imports
                  (fields node)) [] s3), Hmar.
    reflexivity.
  - rewrite (WriteOnly_value
               (buildBuilderNestedClass_WriteOnly inherited getType scalars package Imports
                  blockString (nodeName node) (fields node)) [] s4), Hbuilder.
    reflexivity.
Qed.

End LayoutFacts.

(** ** The running example, continued *)

Module Illustration.

Import Demo.

Lemma recorded_imports_witness :
  exists text s',
    InputObjectTypeDefinition inherited getType scalars package Imports blockString sample []
      = (Some text, s')
    /\ In (Imports_Nullable Imports) s'
    /\ In (Imports_List Imports) s'.
Proof.
  destruct (InputObjectTypeDefinition inherited getType scalars package Imports blockString sample [])
    as [[text |] s'] eqn:Hrun.
  - exists text, s'. split; [reflexivity |].
    destruct (@recorded_imports inherited getType scalars package Imports blockString sample []
                text s' Hrun) as [_ Hfields].
    destruct (Hfields tags) as (_ & _ & Hnullable & Hlist & _); [simpl; auto |].
    split; [apply Hnullable | apply Hlist]; reflexivity.
  - exfalso. vm_compute in Hrun. discriminate.
Defined.

Lemma item_call_by_base_type_witness :
  getBaseTypeNode (type ref) = getBaseTypeNode (type refs)
  /\ getFieldWriterCall inherited getType ref true = getFieldWriterCall inherited getType refs true.
Proof.
  split; [reflexivity |].
  exact (@item_call_by_base_type inherited getType ref refs eq_refl).
Defined.

Lemma enum_written_as_string_witness :
  getType (getBaseTypeNode (NamedType "Status"))
    = Some {| typeKind := EnumType; typeName := "Status" |}
  /\ getFieldWriterCall inherited getType {| name := "status"; type := NamedType "Status" |} true
     = "writeString($item)".
Proof.
  split; [reflexivity |].
  exact (proj2 (@enum_written_as_string inherited getType
                  {| name := "status"; type := NamedType "Status" |}
                  {| typeKind := EnumType; typeName := "Status" |} eq_refl eq_refl)).
Defined.

Lemma output_type_has_no_writer_witness :
  Visitor.getFieldWriterCall inherited
    (fun n => Some {| typeKind := ObjectType; typeName := n |})
    {| name := "node"; type := NamedType "Node" |} true
  = "null($item)".
Proof.
  exact (proj1 (@output_type_has_no_writer inherited
                  (fun n => Some {| typeKind := ObjectType; typeName := n |})
                  scalars package Imports
                  {| name := "node"; type := NamedType "Node" |}
                  {| typeKind := ObjectType; typeName := "Node" |}
                  eq_refl (or_introl eq_refl))).
Defined.

Lemma plain_field_statement_witness :
  isArrayType (type id) = false
  /\ isName (name id) = true
  /\ inherited "ID" = None
  /\ fst (buildFieldsMarshaller inherited getType scalars package Imports id [])
     = Some ("  writer." ++ "writeString" ++ "(" ++ dq ++ name id ++ dq ++ ", "
               ++ name id ++ ");").
Proof.
  split; [reflexivity |]. split; [reflexivity |]. split; [reflexivity |].
  exact (@plain_field_statement inherited getType scalars package Imports id
           {| typeKind := ScalarType; typeName := "ID" |}
           eq_refl (or_introl eq_refl) eq_refl eq_refl (fun _ => eq_refl) []).
Defined.

Lemma field_declaration_witness :
  getType (getBaseTypeNode (type tags))
    = Some {| typeKind := ScalarType; typeName := "String" |}
  /\ (scalars "String" = None -> inherited "String" = None)
  /\ fst (getFieldWithTypePrefix inherited getType scalars package Imports tags true [])
     = Some ("Input<" ++ "List<String>" ++ "> " ++ name tags).
Proof.
  split; [reflexivity |]. split; [intros _; reflexivity |].
  exact (proj1 (@field_declaration inherited getType scalars package Imports tags
                  {| typeKind := ScalarType; typeName := "String" |} [] eq_refl
                  (fun _ _ => eq_refl))).
Defined.

Lemma private_field_per_field_witness :
  exists decls s',
    buildInputPrivateFields inherited getType scalars package Imports (fields sample) []
      = (Some decls, s')
    /\ List.length decls = List.length (fields sample).
Proof.
  destruct (buildInputPrivateFields inherited getType scalars package Imports (fields sample) [])
    as [[decls |] s'] eqn:Hrun.
  - exists decls, s'. split; [reflexivity |]. symmetry.
    exact (Forall2_length
             (@private_field_per_field inherited getType scalars package Imports
                (fields sample) [] decls s' Hrun)).
  - exfalso. vm_compute in Hrun. discriminate.
Defined.

Lemma constructor_per_field_witness :
  exists text s' (params : list string),
    buildInputCtor inherited getType scalars package Imports "Sample" (fields sample) []
      = (Some text, s')
    /\ List.length params = List.length (fields sample).
Proof.
  destruct (buildInputCtor inherited getType scalars package Imports "Sample" (fields sample) [])
    as [[text |] s'] eqn:Hrun.
  - destruct (@constructor_per_field inherited getType scalars package Imports "Sample"
                (fields sample) [] text s' Hrun) as (params & Hparams & _).
    exists text, s', params. split; [reflexivity |]. symmetry.
    exact (Forall2_length Hparams).
  - exfalso. vm_compute in Hrun. discriminate.
Defined.

Lemma getter_per_field_witness :
  exists getters s',
    buildInputGetters inherited getType scalars package Imports (fields sample) []
      = (Some getters, s')
    /\ List.length getters = List.length (fields sample).
Proof.
  destruct (buildInputGetters inherited getType scalars package Imports (fields sample) [])
    as [[getters |] s'] eqn:Hrun.
  - exists getters, s'. split; [reflexivity |]. symmetry.
    exact (Forall2_length
             (@getter_per_field inherited getType scalars package Imports
                (fields sample) [] getters s' Hrun)).
  - exfalso. vm_compute in Hrun. discriminate.
Defined.

Lemma marshaller_statement_per_field_witness :
  exists text s' (statements : list string),
    buildMarshallerOverride inherited getType scalars package Imports (fields sample) []
      = (Some text, s')
    /\ List.length statements = List.length (fields sample).
Proof.
  destruct (buildMarshallerOverride inherited getType scalars package Imports (fields sample) [])
    as [[text |] s'] eqn:Hrun.
  - destruct (@marshaller_statement_per_field inherited getType scalars package Imports
                (fields sample) [] text s' Hrun) as (statements & Hstatements & _).
    exists text, s', statements. split; [reflexivity |]. symmetry.
    exact (Forall2_length Hstatements).
  - exfalso. vm_compute in Hrun. discriminate.
Defined.

Lemma builder_slot_and_setter_per_field_witness :
  exists body s' (slots setters : list string),
    builderBody inherited getType scalars package Imports "Sample" (fields sample) []
      = (Some body, s')
    /\ List.length slots = List.length (fields sample)
    /\ List.length setters = List.length (fields sample).
Proof.
  destruct (builderBody inherited getType scalars package Imports "Sample" (fields sample) [])
    as [[body |] s'] eqn:Hrun.
  - destruct (@builder_slot_and_setter_per_field inherited getType scalars package Imports "Sample"
                (fields sample) [] body s' Hrun)
      as (slots & setters & checks & _ & Hslots & Hsetters).
    exists body, s', slots, setters. split; [reflexivity |].
    split; symmetry; [exact (Forall2_length Hslots) | exact (Forall2_length Hsetters)].
  - exfalso. vm_compute in Hrun. discriminate.
Defined.

Lemma class_layout_witness :
  exists text s' (privateFields getters : list string),
    InputObjectTypeDefinition inherited getType scalars package Imports blockString sample []
      = (Some text, s')
    /\ List.length privateFields = List.length (fields sample)
    /\ List.length getters = List.length (fields sample).
Proof.
  destruct (InputObjectTypeDefinition inherited getType scalars package Imports blockString sample [])
    as [[text |] s'] eqn:Hrun.
  - destruct (@class_layout inherited getType scalars package Imports blockString sample []
                text s' Hrun)
      as (privateFields & ctor & getters & marshallerOverride & builderClass
          & _ & Hprivate & Hgetters & _).
    exists text, s', privateFields, getters. split; [reflexivity |].
    split; assumption.
  - exfalso. vm_compute in Hrun. discriminate.
Defined.

End Illustration.
